(** * TPParser: the SOP parser of [sop_parser.py], embedded and verified

    The Python module parses a Standard Operating Procedure document into
    a dictionary [{meta, blocks}] and extracts the file references of its
    process blocks.  Every function of the module that takes part in the
    parse is translated below, in the order of the source file.

    Conventions of the embedding:
    - a Python [str] is a [string]; a character is a code point below 256;
    - a [dict] / [defaultdict(str)] is a [gmap string string];
    - a raised exception is the [Raise] branch of [result], and carries
      the exception class of the interpreter;
    - a local name that is not bound yet is [None] of an [option];
    - [os.linesep] and the file system are parameters of the parser. *)

From Stdlib Require Import Ascii String DecimalString.
From stdpp Require Import base option list gmap strings.

Local Open Scope string_scope.
Local Open Scope bool_scope.

(** ** Characters and the string methods the parser calls *)

Module Py.

Definition LF : ascii := ascii_of_nat 10.
Definition CR : ascii := ascii_of_nat 13.
Definition dquote : string := String (ascii_of_nat 34) EmptyString.

(** [str.isspace] on one character (code points below 256): the
    characters removed by [s.strip()]. *)
Definition is_space (c : ascii) : bool :=
  let n := nat_of_ascii c in
  ((9 <=? n)%nat && (n <=? 13)%nat)
  || ((28 <=? n)%nat && (n <=? 32)%nat)
  || (n =? 133)%nat || (n =? 160)%nat.

(** [c in chars] for a one-character string [c]. *)
Fixpoint mem (c : ascii) (chars : string) : bool :=
  match chars with
  | EmptyString => false
  | String d r => Ascii.eqb c d || mem c r
  end.

Fixpoint lstrip (p : ascii -> bool) (s : string) : string :=
  match s with
  | EmptyString => EmptyString
  | String c r => if p c then lstrip p r else s
  end.

Fixpoint rstrip (p : ascii -> bool) (s : string) : string :=
  match s with
  | EmptyString => EmptyString
  | String c r =>
      match rstrip p r with
      | EmptyString => if p c then EmptyString else String c EmptyString
      | r' => String c r'
      end
  end.

(** [s.strip()] *)
Definition strip (s : string) : string := rstrip is_space (lstrip is_space s).

(** [s.strip(chars)] *)
Definition strip_chars (chars : string) (s : string) : string :=
  rstrip (fun c => mem c chars) (lstrip (fun c => mem c chars) s).

(** [s[n:]] *)
Fixpoint slice_from (n : nat) (s : string) : string :=
  match n, s with
  | O, _ => s
  | S m, EmptyString => EmptyString
  | S m, String _ r => slice_from m r
  end.

(** [s.startswith(p)] *)
Definition startswith (s p : string) : bool := String.prefix p s.

(** [s.split(sep, maxsplit)] for a one-character separator. *)
Fixpoint split (sep : ascii) (maxsplit : nat) (s : string) : list string :=
  match maxsplit, s with
  | O, _ => [s]
  | S _, EmptyString => [EmptyString]
  | S m, String c r =>
      if Ascii.eqb c sep then EmptyString :: split sep m r
      else match split sep maxsplit r with
           | p :: ps => String c p :: ps
           | [] => [String c EmptyString]
           end
  end.

(** [sep.join(parts)] *)
Fixpoint join (sep : string) (parts : list string) : string :=
  match parts with
  | [] => EmptyString
  | [p] => p
  | p :: ps => p ++ sep ++ join sep ps
  end.

(** ["%d" % n] *)
Definition str_of_nat (n : nat) : string :=
  NilEmpty.string_of_uint (Nat.to_uint n).

(** Truth value of a string and of a dictionary. *)
Definition truthy_str (s : string) : bool := negb (String.eqb s EmptyString).
Definition truthy_dict (d : gmap string string) : bool :=
  negb (Nat.eqb (size d) 0).

End Py.

(** ** The regular expressions of the module

    Each pattern of the source is embedded as the function that the call
    computes.  A line break of the patterns is [\r?\n]: the two
    characters CR LF, or LF alone. *)

Module Re.
Import Py.

Inductive token :=
| Chr (c : ascii)
| Brk (b : string).

(** The text cut into plain characters and line breaks, leftmost first,
    the optional CR taken whenever an LF follows it. *)
Fixpoint tokens (s : string) : list token :=
  match s with
  | EmptyString => []
  | String c r =>
      if Ascii.eqb c LF then Brk (String LF EmptyString) :: tokens r
      else
        match r with
        | String c' r' =>
            if Ascii.eqb c CR && Ascii.eqb c' LF
            then Brk (String CR (String LF EmptyString)) :: tokens r'
            else Chr c :: tokens r
        | EmptyString => Chr c :: tokens r
        end
  end.

(** [re.split(r'\r?\n', s)]: the pieces between line breaks. *)
Fixpoint split_breaks (cur : string) (ts : list token) : list string :=
  match ts with
  | [] => [cur]
  | Chr c :: r => split_breaks (cur ++ String c EmptyString) r
  | Brk _ :: r => cur :: split_breaks EmptyString r
  end.

Definition split_newline (s : string) : list string :=
  split_breaks EmptyString (tokens s).

(** [re.split(r'(\r?\n)(\r?\n)+', s)]: a separator is a maximal run of at
    least two line breaks; since the pattern has two groups, the result
    holds after each piece the first and the last line break of the run
    that ends it.  [run] is the run of line breaks read since the last
    plain character. *)
Definition close_run (cur : string) (run : list string) : string + list string :=
  match run with
  | [] => inl cur
  | [b] => inl (cur ++ b)
  | b1 :: b2 :: bs => inr [cur; b1; List.last bs b2]
  end.

Fixpoint split_runs (cur : string) (run : list string) (ts : list token)
  : list string :=
  match ts with
  | [] =>
      match close_run cur run with
      | inl cur' => [cur']
      | inr out => out ++ [EmptyString]
      end
  | Brk b :: r => split_runs cur (run ++ [b]) r
  | Chr c :: r =>
      match close_run cur run with
      | inl cur' => split_runs (cur' ++ String c EmptyString) [] r
      | inr out => out ++ split_runs (String c EmptyString) [] r
      end
  end.

Definition split_blank_runs (s : string) : list string :=
  split_runs EmptyString [] (tokens s).

(** [re.sub(r'<!--.*?-->', '', s, flags=re.S)]: from left to right, an
    opening marker that has a closing marker after it is removed together
    with everything up to the first such closing marker. *)
Fixpoint has_close (s : string) : bool :=
  match s with
  | EmptyString => false
  | String _ r => startswith s "-->" || has_close r
  end.

Fixpoint sub_comments (inside : bool) (s : string) : string :=
  match s with
  | EmptyString => EmptyString
  | String c r =>
      if inside then
        if startswith s "-->" then
          match r with
          | String _ (String _ r2) => sub_comments false r2
          | _ => EmptyString
          end
        else sub_comments true r
      else
        if startswith s "<!--" && has_close (slice_from 4 s) then
          match r with
          | String _ (String _ (String _ r3)) => sub_comments true r3
          | _ => EmptyString
          end
        else String c (sub_comments false r)
  end.

Definition strip_comments (s : string) : string := sub_comments false s.

(** [.*$] against the whole of [s]: the dot matches no LF, and the end
    anchor also stands before one final LF.  The text taken by [.*]. *)
Fixpoint dotstar_end (s : string) : option string :=
  match s with
  | EmptyString => Some EmptyString
  | String c r =>
      if Ascii.eqb c LF then
        match r with EmptyString => Some EmptyString | _ => None end
      else option_map (String c) (dotstar_end r)
  end.

(** [re.match] of the header pattern: the line starts with a hash and a
    space, the group [type] is [[^:]+] and ends at the first colon, and
    the group [name] is the [.*] before the end anchor. *)
Definition match_header (line : string) : option (string * string) :=
  if startswith line "# " then
    match split ":" 1 (slice_from 2 line) with
    | [ty; rest] =>
        if String.eqb ty EmptyString then None
        else option_map (pair ty) (dotstar_end rest)
    | _ => None
    end
  else None.

(** [_files.txt$] at the start of [s], the dot of the pattern being any
    character but LF. *)
Definition files_txt_end (s : string) : bool :=
  startswith s "_files"
  && match slice_from 6 s with
     | String c r =>
         negb (Ascii.eqb c LF)
         && (String.eqb r "txt" || String.eqb r (String "t" (String "x" (String "t" (String LF EmptyString)))))
     | EmptyString => false
     end.

(** [re.match(r'.*_files.txt$', s)] as a truth value. *)
Fixpoint match_files_txt (s : string) : bool :=
  files_txt_end s
  || match s with
     | EmptyString => false
     | String c r => negb (Ascii.eqb c LF) && match_files_txt r
     end.

End Re.

(** ** Exceptions and results *)

(** The exception classes a call of the module can end in.
    [ParseException] is the class the module declares; the others are
    raised by the interpreter ([ValueError] also by [parse_sop] itself). *)
Inductive exn :=
| ParseException (msg : string)
| ValueError (msg : string)
| IndexError
| UnboundLocalError (local : string)
| OSError.

Inductive result (A : Type) :=
| Ok (a : A)
| Raise (e : exn).
Arguments Ok {A} a.
Arguments Raise {A} e.

Definition bind {A B} (r : result A) (k : A -> result B) : result B :=
  match r with
  | Ok a => k a
  | Raise e => Raise e
  end.

Notation "'do' x <- r ; k" := (bind r (fun x => k))
  (at level 10, x name, r at level 100, k at level 200).

Definition is_ParseException (e : exn) : bool :=
  match e with ParseException _ => true | _ => false end.

(** ** The parsed structure

    The dictionaries the parser returns, one record or constructor per
    shape; the field comments give the key of the dictionary. *)

Abbreviation dict := (gmap string string).

Record HistoryEntry := {
  version : string;
  date : string;
  description : string
}.

Record Subsection := {
  sub_name : string;        (* 'name' *)
  sub_attributes : dict     (* 'attributes' *)
}.

Inductive Block :=
| FreeText (type : string) (text : string)
| Process (type : string) (name : string) (attributes : dict)
          (items : list Subsection)
| History (type : string) (items : list HistoryEntry).

Record Document := {
  meta : dict;
  blocks : list Block
}.

Record FileReference := {
  ref_name : string;        (* 'name' *)
  ref_location : string;    (* 'location' *)
  ref_format : string       (* 'format' *)
}.

Definition block_type_of (b : Block) : string :=
  match b with
  | FreeText ty _ => ty
  | Process ty _ _ _ => ty
  | History ty _ => ty
  end.

Definition PROCESS_BLOCKS : list string := ["Analysis"; "Quality control"].

(** [x in l] for a list of strings. *)
Definition in_list (x : string) (l : list string) : bool :=
  existsb (String.eqb x) l.

(** [d[k]] of a [defaultdict(str)], as a value. *)
Definition getitem (d : dict) (k : string) : string := default EmptyString (d !! k).

(** [k in d] *)
Definition contains (d : dict) (k : string) : bool :=
  match d !! k with Some _ => true | None => false end.

(** [d.get(k, dflt)] *)
Definition get (d : dict) (k dflt : string) : string := default dflt (d !! k).

(** ** [format_history] *)

Definition format_history (hist_line : string) : result HistoryEntry :=
  let parts := Py.split ";" 3 (Py.strip_chars "- " hist_line) in
  match parts with
  | [v; d; t] => Ok {| version := v; date := d; description := t |}
  | _ =>
      Raise (ParseException
        ("expected 3 version history parts, but got "
           ++ Py.str_of_nat (length parts)
           ++ " (text: " ++ Py.dquote ++ hist_line ++ Py.dquote ++ ")"))
  end.

(** ** [parse_block] *)

(** The dictionary that the local [target] names: the block's own
    [attributes], or the ['attributes'] of the subsection stored at an
    index of [subsections].  The name and the list share the object, so a
    store through [target] is seen in the list. *)
Inductive target_ref :=
| TBlock
| TSub (i : nat).

(** The locals of the Process branch.  [target] and [cur_key] are bound
    by the first attribute line only; the local [cur_attr] that the
    source sets to [None] before the loop is never read. *)
Record locals := {
  attributes : dict;
  subsections : list Subsection;
  cur_subsec : option nat;
  target : option target_ref;
  cur_key : option string
}.

Definition initial : locals :=
  {| attributes := ∅; subsections := []; cur_subsec := None;
     target := None; cur_key := None |}.

Definition deref (st : locals) (t : target_ref) : dict :=
  match t with
  | TBlock => attributes st
  | TSub i => from_option sub_attributes ∅ (subsections st !! i)
  end.

Definition set_attr (k v : string) (s : Subsection) : Subsection :=
  {| sub_name := sub_name s; sub_attributes := <[k:=v]> (sub_attributes s) |}.

(** [target[k] = v] *)
Definition store (st : locals) (t : target_ref) (k v : string) : locals :=
  match t with
  | TBlock =>
      {| attributes := <[k:=v]> (attributes st);
         subsections := subsections st;
         cur_subsec := cur_subsec st;
         target := target st; cur_key := cur_key st |}
  | TSub i =>
      {| attributes := attributes st;
         subsections := alter (set_attr k v) i (subsections st);
         cur_subsec := cur_subsec st;
         target := target st; cur_key := cur_key st |}
  end.

Definition unparseable_msg (block_type block_name line : string) : string :=
  "In " ++ Py.dquote ++ block_type ++ ": " ++ block_name ++ Py.dquote
    ++ ", encounted unparseable line: " ++ line.

Definition file_list_msg (block_type block_name subsec_name : string) : string :=
  "In " ++ Py.dquote ++ block_type ++ ": " ++ block_name ++ Py.dquote
    ++ ", encountered entry with type 'file list' and expected the file to end in '_files.txt', but found '"
    ++ subsec_name ++ "' instead".

(** The body of the header branch: the new subsection is appended to
    [subsections] and named by [cur_subsec]; [target] and [cur_key] are
    not assigned. *)
Definition open_subsection (st : locals) (line : string) : locals :=
  {| attributes := attributes st;
     subsections :=
       subsections st
         ++ [{| sub_name := Py.strip (Py.slice_from 3 line);
                sub_attributes := ∅ |}];
     cur_subsec := Some (length (subsections st));
     target := target st; cur_key := cur_key st |}.

Section Parser.

(** [os.linesep] *)
Variable linesep : string.

(** One turn of the loop over [lines[1:]] of a Process block. *)
Definition process_line (block_type block_name : string)
    (st : locals) (line : string) : result locals :=
  if Py.startswith line "- " then
    match Py.split ":" 1 line with
    | [key; val] =>
        let key := Py.strip (Py.slice_from 2 key) in
        let t := match cur_subsec st with
                 | Some i => TSub i
                 | None => TBlock
                 end in
        Ok (store {| attributes := attributes st;
                     subsections := subsections st;
                     cur_subsec := cur_subsec st;
                     target := Some t; cur_key := Some key |}
                  t key (Py.strip val))
    | _ => Raise (ValueError "not enough values to unpack (expected 2, got 1)")
    end
  else if Py.startswith line "## " then
    if negb (Py.startswith line "## Not uploaded:") then
      Ok (open_subsection st line)
    else Ok st
  else
    match target st with
    | None => Raise (UnboundLocalError "target")
    | Some t =>
        if Py.truthy_dict (deref st t) then
          match cur_key st with
          | None => Raise (UnboundLocalError "cur_key")
          | Some k =>
              if Py.truthy_str k then
                let old := getitem (deref st t) k in
                Ok (store st t k
                      (old ++ (if Py.truthy_str old then linesep else EmptyString)
                           ++ Py.strip line))
              else Raise (ParseException (unparseable_msg block_type block_name line))
          end
        else Raise (ParseException (unparseable_msg block_type block_name line))
    end.

Fixpoint process_lines (block_type block_name : string)
    (st : locals) (lines : list string) : result locals :=
  match lines with
  | [] => Ok st
  | line :: rest =>
      do st' <- process_line block_type block_name st line;
      process_lines block_type block_name st' rest
  end.

(** The check of one subsection in the loop that follows. *)
Definition bad_file_list (subsec : Subsection) : bool :=
  contains (sub_attributes subsec) "Type"
  && String.eqb (getitem (sub_attributes subsec) "Type") "file list"
  && negb (Re.match_files_txt (sub_name subsec)).

Fixpoint check_file_lists (block_type block_name : string)
    (subsecs : list Subsection) : result unit :=
  match subsecs with
  | [] => Ok tt
  | subsec :: rest =>
      if bad_file_list subsec
      then Raise (ParseException
                    (file_list_msg block_type block_name (sub_name subsec)))
      else check_file_lists block_type block_name rest
  end.

(** [[format_history(x) for x in lines]], the first failure re-raised
    with the block type in front. *)
Fixpoint history_items (block_type : string) (lines : list string)
  : result (list HistoryEntry) :=
  match lines with
  | [] => Ok []
  | x :: rest =>
      match format_history x with
      | Ok h =>
          do hs <- history_items block_type rest;
          Ok (h :: hs)
      | Raise (ParseException ex) =>
          Raise (ParseException
                   ("In " ++ Py.dquote ++ block_type ++ Py.dquote
                      ++ " block, " ++ ex))
      | Raise e => Raise e
      end
  end.

(** [parse_block] after the list [lines] has been computed. *)
Definition parse_lines (lines : list string) : result Block :=
  match lines with
  | [] => Raise IndexError
  | header :: body =>
      match Re.match_header header with
      | None =>
          Raise (ParseException
                   ("Header line '" ++ header
                      ++ "' did not match expected format '# <type>: <name>'"))
      | Some (ty, nm) =>
          let block_type := Py.strip ty in
          let block_name := Py.strip nm in
          if in_list block_type ["Introduction"; "Literature"] then
            Ok (FreeText block_type (Py.join linesep body))
          else if in_list block_type PROCESS_BLOCKS then
            do st <- process_lines block_type block_name initial body;
            do _ <- check_file_lists block_type block_name (subsections st);
            Ok (Process block_type block_name (attributes st) (subsections st))
          else if String.eqb block_type "History" then
            do hs <- history_items block_type body;
            Ok (History block_type hs)
          else
            Raise (ParseException
                     ("Encountered unrecognized block type '" ++ block_type ++ "'"))
      end
  end.

Definition nonblank (x : string) : bool := Py.truthy_str (Py.strip x).

Definition parse_block (block_str : string) : result Block :=
  parse_lines (List.filter nonblank (Re.split_newline block_str)).

(** ** [parse_sop] *)

(** [dict(...)] over the preamble lines: every line must give two bits. *)
Fixpoint preamble_dict (i : nat) (d : dict) (lines : list string) : result dict :=
  match lines with
  | [] => Ok d
  | line :: rest =>
      match List.map (Py.strip_chars "# ") (Py.split ":" 1 line) with
      | [k; v] => preamble_dict (S i) (<[k:=v]> d) rest
      | bits =>
          Raise (ValueError
                   ("dictionary update sequence element #" ++ Py.str_of_nat i
                      ++ " has length " ++ Py.str_of_nat (length bits)
                      ++ "; 2 is required"))
      end
  end.

Fixpoint parse_blocks (block_strs : list string) : result (list Block) :=
  match block_strs with
  | [] => Ok []
  | block_str :: rest =>
      do b <- parse_block block_str;
      do bs <- parse_blocks rest;
      Ok (b :: bs)
  end.

(** The list [blocks] of [parse_sop]. *)
Definition split_blocks (fulltext : string) : list string :=
  List.filter nonblank (Re.split_blank_runs (Re.strip_comments fulltext)).

(** [parse_sop] from the text that was read. *)
Definition parse_fulltext (fulltext : string) : result Document :=
  match split_blocks fulltext with
  | [] => Raise IndexError
  | first :: rest =>
      do preamble <- preamble_dict 0 ∅ (Re.split_newline first);
      do bs <- parse_blocks rest;
      Ok {| meta := preamble; blocks := bs |}
  end.

(** [open(filename, 'r').read()]: the text of the file, or the error of
    the operating system. *)
Variable open_read : string -> result string.

(** An argument is [None] or a value: for [fp] the text its [read()]
    returns (a file object is true), for [filename] the path (true unless
    empty). *)
Definition truthy_fp (fp : option string) : bool :=
  match fp with Some _ => true | None => false end.

Definition truthy_filename (filename : option string) : bool :=
  match filename with Some p => Py.truthy_str p | None => false end.

Definition parse_sop (fp filename : option string) : result Document :=
  do fulltext <-
    (if truthy_fp fp && negb (truthy_filename filename) then
       Ok (default EmptyString fp)
     else if truthy_filename filename && truthy_fp fp then
       open_read (default EmptyString filename)
     else
       Raise (ValueError "Either fp or filename must be specified, but not both"));
  parse_fulltext fulltext.

(** ** [extract_filenames] *)

Definition file_reference (subsec : Subsection) : FileReference :=
  {| ref_name := sub_name subsec;
     ref_location := get (sub_attributes subsec) "Location" ".";
     ref_format := get (sub_attributes subsec) "Format" EmptyString |}.

Definition block_references (block : Block) : list FileReference :=
  if in_list (block_type_of block) PROCESS_BLOCKS then
    match block with
    | Process _ _ _ items => List.map file_reference items
    | _ => []
    end
  else [].

(** The records the generator yields, as a list. *)
Definition extract_filenames (fp filename : option string)
  : result (list FileReference) :=
  do sop_struct <- parse_sop fp filename;
  Ok (List.concat (List.map block_references (blocks sop_struct))).

End Parser.

(** * Properties *)

(** ** Sample documents *)

Definition nl : string := String Py.LF EmptyString.

(** [s.endswith(suffix)], used in statements only. *)
Fixpoint endswith (s suffix : string) : bool :=
  String.eqb s suffix
  || match s with
     | EmptyString => false
     | String _ r => endswith r suffix
     end.

Definition sample_sop : string :=
  "# Title: Test SOP" ++ nl ++ nl
    ++ "# Analysis: Cell Segmentation" ++ nl
    ++ "- Location: ./data" ++ nl
    ++ "## out_files.txt" ++ nl
    ++ "- Type: file list" ++ nl
    ++ "- Location: ./results" ++ nl
    ++ "- Format: txt".

Definition sample_history_line : string := "- 1.0;2018-10-30;fixed a; b".

Definition sample_bad_file_list : string :=
  "# Analysis: x" ++ nl ++ "## a_filesXtxt" ++ nl ++ "- Type: file list".

Definition sample_stray_line : string :=
  "# Title: T" ++ nl ++ nl ++ "# Analysis: A" ++ nl ++ "stray line".

Definition sample_attr_no_colon : string :=
  "# Title: T" ++ nl ++ nl ++ "# Analysis: A" ++ nl ++ "- Location".

Definition sample_preamble_no_colon : string :=
  "Test SOP" ++ nl ++ nl ++ "# Analysis: A" ++ nl ++ "- Location: x".

Definition sample_blank_only : string :=
  " " ++ nl ++ nl ++ "<!-- nothing here -->" ++ nl.

Definition sample_free_text : string :=
  "# Introduction: x" ++ nl ++ "foo" ++ nl ++ "  " ++ nl ++ "bar".

(** The body as the specification words it: every line after the header
    line, the whitespace-only ones too, joined by the separator. *)
Definition body_all_lines (linesep block_str : string) : string :=
  Py.join linesep (tail (Re.split_newline block_str)).

Definition in_hash_space (c : ascii) : bool := Py.mem c "# ".

Definition tab : string := String (ascii_of_nat 9) EmptyString.

Definition sample_continuation : string :=
  "# Analysis: x" ++ nl ++ "- A: x" ++ nl ++ "## sub" ++ nl ++ "cont".

(** ** Vocabulary for stripped strings *)

Section Trimmed.

Variable P : ascii -> bool.

Fixpoint all_sat (s : string) : bool :=
  match s with
  | EmptyString => true
  | String c r => P c && all_sat r
  end.

Definition head_unsat (s : string) : bool :=
  match s with
  | EmptyString => true
  | String c _ => negb (P c)
  end.

Fixpoint last_unsat (s : string) : bool :=
  match s with
  | EmptyString => true
  | String c EmptyString => negb (P c)
  | String _ r => last_unsat r
  end.

(** [t] is [s] without its longest prefix and its longest suffix of
    characters that satisfy [P]. *)
Definition trimmed (s t : string) : Prop :=
  exists p q,
    s = p ++ t ++ q
    /\ all_sat p = true /\ all_sat q = true
    /\ head_unsat t = true /\ last_unsat t = true.

End Trimmed.

(** ** Vocabulary for the locals of the Process loop *)

Definition valid_ref (st : locals) (t : target_ref) : Prop :=
  match t with
  | TBlock => True
  | TSub i => i < length (subsections st)
  end.

(** What holds of the locals after any number of turns: [cur_subsec]
    names a stored subsection, and once [target] is bound, [cur_key] is
    bound too and is a key of the dictionary that [target] names. *)
Record consistent (st : locals) : Prop := {
  cur_subsec_stored :
    forall i, cur_subsec st = Some i -> i < length (subsections st);
  target_holds_key :
    forall t, target st = Some t ->
      valid_ref st t
      /\ exists k, cur_key st = Some k /\ is_Some (deref st t !! k)
}.

(** ** Vocabulary for lines and separators *)

(** [s.count(c)] for a one-character string [c]. *)
Fixpoint count_char (c : ascii) (s : string) : nat :=
  match s with
  | EmptyString => 0
  | String d r => (if Ascii.eqb d c then 1 else 0) + count_char c r
  end.

(** The three kinds of body line of a Process block, by the tests of the
    loop in their order. *)
Definition is_attribute (line : string) : bool := Py.startswith line "- ".

Definition opens_subsection (line : string) : bool :=
  negb (Py.startswith line "- ")
  && Py.startswith line "## "
  && negb (Py.startswith line "## Not uploaded:").

Definition is_continuation (line : string) : bool :=
  negb (Py.startswith line "- ") && negb (Py.startswith line "## ").

(** The subsections a block holds, as the extraction reads them. *)
Definition items_of (b : Block) : list Subsection :=
  match b with
  | Process _ _ _ items => items
  | _ => []
  end.

(** ** Vocabulary for the exceptions of a parse *)

(** The exceptions that the parse of a preamble or of a block ends in:
    the module's own, the [ValueError] of a failed unpacking or [dict],
    and [UnboundLocalError] on the local [target]. *)
Definition parse_failure (e : exn) : Prop :=
  match e with
  | ParseException _ | ValueError _ => True
  | UnboundLocalError local => local = "target"
  | IndexError | OSError => False
  end.

(** A token that is a character other than white space. *)
Definition ink_token (t : Re.token) : bool :=
  match t with
  | Re.Chr c => negb (Py.is_space c)
  | Re.Brk _ => false
  end.

(** ** Vocabulary for texts built from lines *)

Definition crlf : string := String Py.CR (String Py.LF EmptyString).

(** A line break as a text writes it: LF, or CR LF. *)
Definition line_break (brk : string) : Prop := brk = nl \/ brk = crlf.

(** A line holds no character of a line break. *)
Definition plain (line : string) : bool :=
  negb (Py.mem Py.LF line) && negb (Py.mem Py.CR line).

(** A line of a segment: plain and not empty. *)
Definition segment_line (line : string) : bool :=
  plain line && Py.truthy_str line.

(** A segment: one or more segment lines, joined by the line break, and
    not blank as a whole. *)
Definition segment_of (brk : string) : list string -> string :=
  Py.join brk.

Definition segment_lines (brk : string) (lines : list string) : Prop :=
  lines <> [] /\ Forall (fun line => segment_line line = true) lines
  /\ nonblank (segment_of brk lines) = true.

(** What the split on runs of line breaks returns for segments that one
    empty line separates: the segments, with the two groups of the
    pattern between them. *)
Fixpoint with_groups (brk : string) (segs : list string) : list string :=
  match segs with
  | [] => []
  | [seg] => [seg]
  | seg :: rest => seg :: brk :: brk :: with_groups brk rest
  end.

(** The parse of blocks given as lists of lines: each block is parsed
    from its non-blank lines, the first failure ends the parse. *)
Fixpoint parse_line_lists (linesep : string) (blocks : list (list string))
  : result (list Block) :=
  match blocks with
  | [] => Ok []
  | lines :: rest =>
      do b <- parse_lines linesep (List.filter nonblank lines);
      do bs <- parse_line_lists linesep rest;
      Ok (b :: bs)
  end.

(** ** Vocabulary for the preamble and for continued attributes *)

(** A preamble line written from a key and a value. *)
Definition preamble_line (p : string * string) : string :=
  p.1 ++ String ":" p.2.

(** The entry a preamble line leaves in the metadata: key and value with
    the hashes and spaces at their ends removed. *)
Definition meta_entry (d : dict) (p : string * string) : dict :=
  <[Py.strip_chars "# " p.1 := Py.strip_chars "# " p.2]> d.

(** The value of an attribute after one more continuation line. *)
Definition append_line (linesep old line : string) : string :=
  old ++ (if Py.truthy_str old then linesep else EmptyString) ++ Py.strip line.

(** The locals while the attribute [k] of the dictionary [t] holds [v]:
    [target] and [cur_key] name them, [t] was there when the block had
    [n0] subsections, and the subsections opened since then are empty. *)
Record attribute_held (n0 : nat) (t : target_ref) (k v : string)
    (st : locals) : Prop := {
  held_target : target st = Some t;
  held_key : cur_key st = Some k;
  held_old : match t with TBlock => True | TSub i => i < n0 end;
  held_length : n0 <= length (subsections st);
  held_value : deref st t !! k = Some v;
  held_new_empty :
    forall j s, n0 <= j -> subsections st !! j = Some s -> sub_attributes s = ∅
}.

(** ** Basic facts about results and the loop *)

Lemma process_lines_app linesep bt bn st l1 l2 :
  process_lines linesep bt bn st (l1 ++ l2)
  = bind (process_lines linesep bt bn st l1)
         (fun st' => process_lines linesep bt bn st' l2).
Proof.
  revert st. induction l1 as [|line l1 IH]; intros st; simpl.
  - reflexivity.
  - destruct (process_line linesep bt bn st line) as [st'|e]; simpl.
    + apply IH.
    + reflexivity.
Qed.

(** ** The entry point and its two arguments *)

(** C1: [parse_sop] with a file name and no handle raises [ValueError]
    whatever the file holds, and with both a handle and a file name it
    raises nothing for the arguments: it reads the file and parses it. *)
Theorem parse_sop_arguments :
  forall (linesep : string) (open_read : string -> result string),
    (forall path,
        parse_sop linesep open_read None (Some path)
        = Raise (ValueError "Either fp or filename must be specified, but not both"))
    /\ (forall text,
        parse_sop linesep open_read (Some text) (Some "sop.md")
        = bind (open_read "sop.md") (parse_fulltext linesep))
    /\ (forall text,
        parse_sop linesep open_read (Some text) None = parse_fulltext linesep text)
    /\ parse_sop linesep open_read None None
       = Raise (ValueError "Either fp or filename must be specified, but not both").
Proof.
  intros linesep open_read. split; [|split; [|split]].
  - intros path. unfold parse_sop. simpl.
    rewrite andb_false_r. reflexivity.
  - intros text. reflexivity.
  - intros text. reflexivity.
  - reflexivity.
Qed.

(** ** History lines *)

(** C3: a history line whose description holds a semicolon is split into
    four parts, and [format_history] raises [ParseException] with the
    count 4. *)
Theorem format_history_semicolon_in_description :
  Py.split ";" 3 (Py.strip_chars "- " sample_history_line)
  = ["1.0"; "2018-10-30"; "fixed a"; " b"]
  /\ format_history sample_history_line
     = Raise (ParseException
                ("expected 3 version history parts, but got 4 (text: "
                   ++ Py.dquote ++ sample_history_line ++ Py.dquote ++ ")")).
Proof. split; reflexivity. Qed.

(** ** File lists *)

(** C4: a subsection of type file list whose name is [a_filesXtxt], which
    does not end with [_files.txt], passes the check after the loop: the
    block is returned. *)
Theorem file_list_name_any_character :
  forall linesep : string,
    parse_block linesep sample_bad_file_list
    = Ok (Process "Analysis" "x" ∅
            [{| sub_name := "a_filesXtxt";
                sub_attributes := {["Type" := "file list"]} |}])
    /\ endswith "a_filesXtxt" "_files.txt" = false.
Proof. intros linesep. split; vm_compute; reflexivity. Qed.

(** ** Exceptions that leave the parser *)

(** C5: texts on which [parse_sop] and [extract_filenames] end in an
    exception that is not [ParseException]: a continuation line before
    any attribute line, an attribute line without a colon, a preamble
    line without a colon. *)
Theorem other_exceptions_escape :
  forall (linesep : string) (open_read : string -> result string),
    parse_sop linesep open_read (Some sample_stray_line) None
    = Raise (UnboundLocalError "target")
    /\ extract_filenames linesep open_read (Some sample_stray_line) None
       = Raise (UnboundLocalError "target")
    /\ parse_sop linesep open_read (Some sample_attr_no_colon) None
       = Raise (ValueError "not enough values to unpack (expected 2, got 1)")
    /\ parse_sop linesep open_read (Some sample_preamble_no_colon) None
       = Raise (ValueError
                  "dictionary update sequence element #0 has length 1; 2 is required")
    /\ is_ParseException (UnboundLocalError "target") = false.
Proof.
  intros linesep open_read.
  split; [|split; [|split; [|split]]]; vm_compute; reflexivity.
Qed.

(** ** The empty document *)

(** C6: when the text without its comments has no non-blank segment,
    [parse_sop] raises [IndexError], which is not [ParseException]. *)
Theorem empty_document_index_error :
  forall (linesep : string) (open_read : string -> result string) (text : string),
    split_blocks text = [] ->
    parse_sop linesep open_read (Some text) None = Raise IndexError
    /\ extract_filenames linesep open_read (Some text) None = Raise IndexError.
Proof.
  intros linesep open_read text Hnone.
  assert (Hp : parse_sop linesep open_read (Some text) None = Raise IndexError).
  { unfold parse_sop. simpl. unfold parse_fulltext. rewrite Hnone. reflexivity. }
  split; [exact Hp|].
  unfold extract_filenames. rewrite Hp. reflexivity.
Qed.

Lemma empty_document_index_error_witness :
  split_blocks sample_blank_only = []
  /\ parse_sop nl (fun _ => Raise OSError) (Some sample_blank_only) None
     = Raise IndexError.
Proof.
  split.
  - vm_compute. reflexivity.
  - apply (empty_document_index_error nl (fun _ => Raise OSError) sample_blank_only).
    vm_compute. reflexivity.
Defined.

(** ** The sample of the specification, end to end *)

(** C7: on the sample document [extract_filenames] yields the one record
    of the subsection, with the location and the format of the
    subsection; in general the location and the format are the
    subsection's own attributes, and the defaults stand in only when the
    attribute is absent. *)
Theorem extract_filenames_sample :
  forall (linesep : string) (open_read : string -> result string),
    extract_filenames linesep open_read (Some sample_sop) None
    = Ok [{| ref_name := "out_files.txt";
             ref_location := "./results";
             ref_format := "txt" |}]
    /\ parse_sop linesep open_read (Some sample_sop) None
       = Ok {| meta := {["Title" := "Test SOP"]};
               blocks :=
                 [Process "Analysis" "Cell Segmentation"
                    {["Location" := "./data"]}
                    [{| sub_name := "out_files.txt";
                        sub_attributes :=
                          <["Format" := "txt"]>
                            (<["Location" := "./results"]>
                               {["Type" := "file list"]}) |}]] |}
    /\ (forall subsec : Subsection,
          ref_name (file_reference subsec) = sub_name subsec
          /\ ref_location (file_reference subsec)
             = match sub_attributes subsec !! "Location" with
               | Some v => v
               | None => "."
               end
          /\ ref_format (file_reference subsec)
             = match sub_attributes subsec !! "Format" with
               | Some v => v
               | None => EmptyString
               end).
Proof.
  intros linesep open_read. split; [|split].
  - vm_compute. reflexivity.
  - vm_compute. reflexivity.
  - intros subsec. unfold file_reference, get. simpl.
    destruct (sub_attributes subsec !! "Location"),
             (sub_attributes subsec !! "Format"); auto.
Qed.

(** ** Prefixes of a line *)

Lemma prefix_app_l (p q s : string) :
  String.prefix (p ++ q) s = true -> String.prefix p s = true.
Proof.
  revert s. induction p as [|a p IH]; intros s H.
  - destruct s; reflexivity.
  - destruct s as [|b s]; [discriminate H|].
    change (String.prefix (String a (p ++ q)) (String b s) = true) in H.
    cbn [String.prefix] in *.
    destruct (ascii_dec a b); [apply IH; exact H | discriminate H].
Qed.

Lemma subsection_header_not_attribute (line : string) :
  Py.startswith line "## " = true -> Py.startswith line "- " = false.
Proof.
  unfold Py.startswith. intros H.
  destruct line as [|c r]; [discriminate H|].
  cbn [String.prefix] in H.
  destruct (ascii_dec "#" c) as [<-|]; [reflexivity | discriminate H].
Qed.

Lemma not_uploaded_is_header (line : string) :
  Py.startswith line "## Not uploaded:" = true -> Py.startswith line "## " = true.
Proof. unfold Py.startswith. apply (prefix_app_l "## " "Not uploaded:"). Qed.

Lemma process_not_free_text (block_type : string) :
  in_list block_type PROCESS_BLOCKS = true ->
  in_list block_type ["Introduction"; "Literature"] = false.
Proof.
  unfold in_list, PROCESS_BLOCKS. simpl. intros H.
  rewrite !orb_false_r in *.
  apply orb_true_iff in H. destruct H as [H|H];
    apply String.eqb_eq in H; subst; reflexivity.
Qed.

(** ** Free-text blocks *)

(** C8, as stated, fails: a whitespace-only line of the body is not in
    the text that [parse_block] returns. *)
Lemma free_text_drops_blank_line :
  body_all_lines nl sample_free_text = "foo" ++ nl ++ "  " ++ nl ++ "bar"
  /\ parse_block nl sample_free_text
     = Ok (FreeText "Introduction" ("foo" ++ nl ++ "bar"))
  /\ parse_block nl sample_free_text
     <> Ok (FreeText "Introduction" (body_all_lines nl sample_free_text)).
Proof.
  split; [|split].
  - vm_compute. reflexivity.
  - vm_compute. reflexivity.
  - vm_compute. intros H. discriminate H.
Qed.

(** C8, amended: for an Introduction or Literature block the first
    non-blank line is the header and the text is the later non-blank
    lines, in order, joined by [os.linesep]; lines that are empty or
    whitespace-only are dropped. *)
Theorem free_text_keeps_nonblank_lines :
  forall (linesep block_str header ty nm : string) (body : list string),
    List.filter nonblank (Re.split_newline block_str) = header :: body ->
    Re.match_header header = Some (ty, nm) ->
    in_list (Py.strip ty) ["Introduction"; "Literature"] = true ->
    parse_block linesep block_str
    = Ok (FreeText (Py.strip ty) (Py.join linesep body))
    /\ Forall (fun line => nonblank line = true) body.
Proof.
  intros linesep block_str header ty nm body Hlines Hhdr Hty. split.
  - unfold parse_block, parse_lines. rewrite Hlines, Hhdr, Hty. reflexivity.
  - assert (Hall : Forall (fun line => nonblank line = true) (header :: body)).
    { rewrite <- Hlines. apply List.Forall_forall. intros x Hx.
      apply List.filter_In in Hx. tauto. }
    inversion Hall; assumption.
Qed.

Lemma free_text_keeps_nonblank_lines_witness :
  parse_block nl sample_free_text
  = Ok (FreeText (Py.strip "Introduction") (Py.join nl ["foo"; "bar"]))
  /\ Forall (fun line => nonblank line = true) ["foo"; "bar"].
Proof.
  apply (free_text_keeps_nonblank_lines nl sample_free_text
           "# Introduction: x" "Introduction" " x" ["foo"; "bar"]).
  - vm_compute. reflexivity.
  - vm_compute. reflexivity.
  - vm_compute. reflexivity.
Defined.

(** ** Subsections marked as not uploaded *)

(** C9: a body line that starts with [## Not uploaded:] leaves every
    local of the loop as it was (no subsection is appended, the current
    subsection, target and key are kept), so a Process block parses to
    the same result, and yields the same file references, as the block
    without that line. *)
Theorem not_uploaded_line_is_skipped :
  forall (linesep line : string),
    Py.startswith line "## Not uploaded:" = true ->
    (forall bt bn st, process_line linesep bt bn st line = Ok st)
    /\ (forall header ty nm before after,
          Re.match_header header = Some (ty, nm) ->
          in_list (Py.strip ty) PROCESS_BLOCKS = true ->
          parse_lines linesep (header :: before ++ line :: after)
          = parse_lines linesep (header :: before ++ after)).
Proof.
  intros linesep line Hline.
  assert (Hstep : forall bt bn st, process_line linesep bt bn st line = Ok st).
  { intros bt bn st. unfold process_line.
    rewrite (subsection_header_not_attribute line (not_uploaded_is_header line Hline)).
    rewrite (not_uploaded_is_header line Hline), Hline. reflexivity. }
  split; [exact Hstep|].
  intros header ty nm before after Hhdr Hty.
  unfold parse_lines. rewrite Hhdr, (process_not_free_text _ Hty), Hty.
  rewrite !process_lines_app.
  destruct (process_lines linesep (Py.strip ty) (Py.strip nm) initial before)
    as [st|e]; simpl; [|reflexivity].
  rewrite Hstep. reflexivity.
Qed.

Lemma not_uploaded_line_is_skipped_witness :
  Py.startswith "## Not uploaded: raw.dat" "## Not uploaded:" = true
  /\ process_line nl "Analysis" "x" initial "## Not uploaded: raw.dat" = Ok initial
  /\ parse_lines nl ("# Analysis: x" :: ["- A: 1"] ++ "## Not uploaded: raw.dat" :: ["- B: 2"])
     = parse_lines nl ("# Analysis: x" :: ["- A: 1"] ++ ["- B: 2"]).
Proof.
  pose proof (not_uploaded_line_is_skipped nl "## Not uploaded: raw.dat" eq_refl)
    as [Hstep Hblock].
  split; [reflexivity|split].
  - apply Hstep.
  - apply (Hblock "# Analysis: x" "Analysis" " x"); reflexivity.
Defined.

(** ** Stripping a set of characters *)

Section Strip.

Variable P : ascii -> bool.

Lemma app_String (a : ascii) (s t : string) : String a s ++ t = String a (s ++ t).
Proof. reflexivity. Qed.

Lemma app_Empty (t : string) : EmptyString ++ t = t.
Proof. reflexivity. Qed.

Lemma lstrip_split (s : string) :
  exists p, s = p ++ Py.lstrip P s
            /\ all_sat P p = true /\ head_unsat P (Py.lstrip P s) = true.
Proof.
  induction s as [|c r (p & Hr & Hp & Hh)].
  - exists EmptyString. repeat split.
  - cbn [Py.lstrip]. destruct (P c) eqn:Hc.
    + exists (String c p). rewrite app_String, <- Hr.
      cbn [all_sat]. rewrite Hc, Hp. auto.
    + exists EmptyString. rewrite app_Empty. cbn [all_sat head_unsat].
      rewrite Hc. auto.
Qed.

Lemma rstrip_split (s : string) :
  exists q, s = Py.rstrip P s ++ q
            /\ all_sat P q = true /\ last_unsat P (Py.rstrip P s) = true.
Proof.
  induction s as [|c r (q & Hr & Hq & Hl)].
  - exists EmptyString. repeat split.
  - cbn [Py.rstrip]. destruct (Py.rstrip P r) as [|d r'] eqn:Hrs.
    + rewrite app_Empty in Hr. subst q. destruct (P c) eqn:Hc.
      * exists (String c r). rewrite app_Empty. cbn [all_sat last_unsat].
        rewrite Hc, Hq. auto.
      * exists r. rewrite app_String, app_Empty. cbn [last_unsat].
        rewrite Hc. auto.
    + exists q. rewrite app_String, <- Hr. auto.
Qed.

Lemma rstrip_head (s : string) :
  head_unsat P s = true -> head_unsat P (Py.rstrip P s) = true.
Proof.
  destruct s as [|c r]; [reflexivity|].
  cbn [head_unsat Py.rstrip]. intros Hc.
  destruct (Py.rstrip P r); [|exact Hc].
  apply negb_true_iff in Hc. rewrite Hc. cbn [head_unsat]. rewrite Hc. reflexivity.
Qed.

Lemma strip_trimmed (s : string) :
  trimmed P s (Py.rstrip P (Py.lstrip P s)).
Proof.
  destruct (lstrip_split s) as (p & Hs & Hp & Hh).
  destruct (rstrip_split (Py.lstrip P s)) as (q & Hm & Hq & Hl).
  exists p, q. repeat split; auto.
  - rewrite <- Hm. exact Hs.
  - apply rstrip_head. exact Hh.
Qed.

End Strip.

(** ** The preamble *)

Lemma split_zero (sep : ascii) (s : string) : Py.split sep 0 s = [s].
Proof. destruct s; reflexivity. Qed.

Lemma split_first_colon (key val : string) :
  Py.mem ":" key = false ->
  Py.split ":" 1 (key ++ String ":" val) = [key; val].
Proof.
  induction key as [|c key IH]; intros Hkey.
  - rewrite app_Empty. cbn [Py.split]. rewrite Ascii.eqb_refl, split_zero.
    reflexivity.
  - cbn [Py.mem] in Hkey. apply orb_false_iff in Hkey. destruct Hkey as [Hc Hkey].
    rewrite Ascii.eqb_sym in Hc.
    rewrite app_String. cbn [Py.split]. rewrite Hc, (IH Hkey).
    reflexivity.
Qed.

Lemma preamble_dict_pairs (pairs : list (string * string)) :
  Forall (fun p => Py.mem ":" p.1 = false) pairs ->
  forall i d,
    preamble_dict i d (List.map preamble_line pairs)
    = Ok (foldl meta_entry d pairs).
Proof.
  intros Hpairs. induction Hpairs as [|[key val] pairs Hkey _ IH]; intros i d.
  - reflexivity.
  - cbn [List.map preamble_dict]. unfold preamble_line at 1. cbn [fst snd].
    rewrite (split_first_colon key val Hkey). cbn [List.map].
    rewrite IH. reflexivity.
Qed.

(** C10: when the lines of the preamble are [key:value] with no colon in
    the key, the metadata that [parse_sop] returns holds, for every line
    in turn, the key and the value of the line, both stripped of the
    characters hash and space, and of these only, at both ends: what is
    removed from a piece is a prefix and a suffix made of hashes and
    spaces, and what is left neither starts nor ends with one of them. *)
Theorem preamble_line_pieces :
  forall (linesep : string) (open_read : string -> result string)
         (text first : string) (rest : list string)
         (pairs : list (string * string)),
    split_blocks text = first :: rest ->
    Re.split_newline first = List.map preamble_line pairs ->
    Forall (fun p => Py.mem ":" p.1 = false) pairs ->
    parse_sop linesep open_read (Some text) None
    = (do bs <- parse_blocks linesep rest;
       Ok {| meta := foldl meta_entry ∅ pairs; blocks := bs |})
    /\ Forall (fun p =>
                 trimmed in_hash_space p.1 (Py.strip_chars "# " p.1)
                 /\ trimmed in_hash_space p.2 (Py.strip_chars "# " p.2)) pairs.
Proof.
  intros linesep open_read text first rest pairs Hsplit Hlines Hpairs. split.
  - change (parse_sop linesep open_read (Some text) None)
      with (parse_fulltext linesep text).
    unfold parse_fulltext. rewrite Hsplit, Hlines.
    rewrite (preamble_dict_pairs pairs Hpairs 0 ∅). reflexivity.
  - apply List.Forall_forall. intros p _. split; apply strip_trimmed.
Qed.

Lemma preamble_line_pieces_witness :
  parse_sop nl (fun _ => Raise OSError)
    (Some ("# Title: #" ++ tab ++ "Test # SOP" ++ tab ++ "# #" ++ nl
             ++ "Version #:1.0 " ++ nl
             ++ "# Title:" ++ tab ++ "Second title #" ++ nl ++ nl
             ++ "# Introduction: i" ++ nl ++ "body"))
    None
  = Ok {| meta := {[ "Title" := tab ++ "Second title"; "Version" := "1.0" ]};
          blocks := [FreeText "Introduction" "body"] |}.
Proof.
  destruct (preamble_line_pieces nl (fun _ => Raise OSError)
              ("# Title: #" ++ tab ++ "Test # SOP" ++ tab ++ "# #" ++ nl
                 ++ "Version #:1.0 " ++ nl
                 ++ "# Title:" ++ tab ++ "Second title #" ++ nl ++ nl
                 ++ "# Introduction: i" ++ nl ++ "body")
              ("# Title: #" ++ tab ++ "Test # SOP" ++ tab ++ "# #" ++ nl
                 ++ "Version #:1.0 " ++ nl
                 ++ "# Title:" ++ tab ++ "Second title #")
              ["# Introduction: i" ++ nl ++ "body"]
              [("# Title", " #" ++ tab ++ "Test # SOP" ++ tab ++ "# #");
               ("Version #", "1.0 ");
               ("# Title", tab ++ "Second title #")]
              eq_refl eq_refl
              ltac:(repeat constructor))
    as [Hparse _].
  rewrite Hparse. vm_compute. reflexivity.
Defined.

(** ** The locals of the Process loop *)

Lemma consistent_initial : consistent initial.
Proof. split; simpl; intros; discriminate. Qed.

Lemma store_fields st t k v :
  cur_subsec (store st t k v) = cur_subsec st
  /\ target (store st t k v) = target st
  /\ cur_key (store st t k v) = cur_key st
  /\ length (subsections (store st t k v)) = length (subsections st).
Proof.
  destruct t; simpl; repeat split; auto. apply length_alter.
Qed.

Lemma store_lookup st t k v :
  valid_ref st t -> deref (store st t k v) t !! k = Some v.
Proof.
  destruct t as [|i]; simpl; intros Hvalid.
  - apply lookup_insert_eq.
  - rewrite list_lookup_alter_eq.
    destruct (lookup_lt_is_Some_2 (subsections st) i Hvalid) as [s Hs].
    rewrite Hs. simpl. apply lookup_insert_eq.
Qed.

Lemma consistent_store st t k v :
  (forall i, cur_subsec st = Some i -> i < length (subsections st)) ->
  valid_ref st t ->
  target st = Some t -> cur_key st = Some k ->
  consistent (store st t k v).
Proof.
  intros Hcur Hvalid Ht Hk.
  destruct (store_fields st t k v) as (Ec & Et & Ek & El).
  split.
  - intros i Hi. rewrite El. apply Hcur. rewrite <- Ec. exact Hi.
  - intros t' Ht'. rewrite Et, Ht in Ht'. injection Ht' as <-. split.
    + destruct t; simpl in *; [exact I | rewrite length_alter; exact Hvalid].
    + exists k. rewrite Ek. split; [exact Hk|].
      rewrite (store_lookup st t k v Hvalid). eauto.
Qed.

Lemma deref_open_subsection st line t :
  valid_ref st t -> deref (open_subsection st line) t = deref st t.
Proof.
  destruct t as [|i]; simpl; intros Hvalid; [reflexivity|].
  rewrite lookup_app_l by exact Hvalid. reflexivity.
Qed.

Lemma consistent_open_subsection st line :
  consistent st -> consistent (open_subsection st line).
Proof.
  intros [Hcur Htgt]. split; simpl.
  - intros i [= <-]. rewrite length_app. simpl. lia.
  - intros t Ht. destruct (Htgt t Ht) as (Hvalid & k & Hk & Hsome).
    split.
    + destruct t; simpl in *; [exact I | rewrite length_app; simpl; lia].
    + exists k. split; [exact Hk|].
      pose proof (deref_open_subsection st line t Hvalid) as E.
      simpl in E. rewrite E. exact Hsome.
Qed.

Lemma consistent_step linesep bt bn st line st' :
  consistent st ->
  process_line linesep bt bn st line = Ok st' ->
  consistent st'.
Proof.
  intros Hst. pose proof Hst as [Hcur Htgt]. unfold process_line.
  destruct (Py.startswith line "- ").
  - destruct (Py.split ":" 1 line) as [|key [|val [|]]]; try discriminate.
    intros [= <-].
    apply consistent_store; simpl; auto.
    destruct (cur_subsec st) as [i|] eqn:Hi; simpl; [apply Hcur; reflexivity | exact I].
  - destruct (Py.startswith line "## ").
    + destruct (negb (Py.startswith line "## Not uploaded:")); intros [= <-].
      * apply consistent_open_subsection. exact Hst.
      * exact Hst.
    + destruct (target st) as [t|] eqn:Ht; [|discriminate].
      destruct (Htgt t eq_refl) as (Hvalid & k & Hk & Hsome).
      destruct (Py.truthy_dict (deref st t)); [|discriminate].
      rewrite Hk. destruct (Py.truthy_str k); [|discriminate].
      intros [= <-]. apply consistent_store; auto.
Qed.

Lemma consistent_steps linesep bt bn lines :
  forall st st',
    consistent st ->
    process_lines linesep bt bn st lines = Ok st' ->
    consistent st'.
Proof.
  induction lines as [|line lines IH]; intros st st' Hst; simpl.
  - intros [= <-]. exact Hst.
  - destruct (process_line linesep bt bn st line) as [st1|e] eqn:Hstep; simpl;
      [|discriminate].
    apply IH. exact (consistent_step _ _ _ _ _ _ Hst Hstep).
Qed.

Lemma truthy_dict_key (d : dict) (k : string) :
  is_Some (d !! k) -> Py.truthy_dict d = true.
Proof.
  intros Hk. unfold Py.truthy_dict.
  apply negb_true_iff, Nat.eqb_neq.
  exact (map_size_ne_0_lookup_2 d k Hk).
Qed.

(** ** Continuation lines after a subsection header *)

(** C2, as stated, fails: after an attribute of the block, a continuation
    line that follows a subsection header raises nothing; it is appended
    to the attribute of the block, and the new subsection stays empty. *)
Lemma continuation_after_header_is_appended :
  parse_block nl sample_continuation
  = Ok (Process "Analysis" "x" {["A" := "x" ++ nl ++ "cont"]}
          [{| sub_name := "sub"; sub_attributes := ∅ |}])
  /\ forall msg, parse_block nl sample_continuation <> Raise (ParseException msg).
Proof.
  assert (H : parse_block nl sample_continuation
              = Ok (Process "Analysis" "x" {["A" := "x" ++ nl ++ "cont"]}
                      [{| sub_name := "sub"; sub_attributes := ∅ |}])).
  { vm_compute. reflexivity. }
  split; [exact H|]. intros msg. rewrite H. discriminate.
Qed.

(** * Further properties of the parser *)

(** ** [str.split] with a bound on the number of cuts *)

Lemma split_nonempty (sep : ascii) (n : nat) (s : string) : Py.split sep n s <> [].
Proof.
  revert n. induction s as [|c r IH]; intros [|n]; cbn [Py.split]; try discriminate.
  destruct (Ascii.eqb c sep); [discriminate|].
  destruct (Py.split sep (S n) r); discriminate.
Qed.

Lemma split_length (sep : ascii) (s : string) :
  forall n, length (Py.split sep n s) = S (Nat.min n (count_char sep s)).
Proof.
  induction s as [|c r IH]; intros [|n]; cbn [Py.split count_char]; try reflexivity.
  destruct (Ascii.eqb c sep) eqn:Hc.
  - cbn [length]. rewrite IH. reflexivity.
  - pose proof (IH (S n)) as Hlen.
    destruct (Py.split sep (S n) r) as [|p ps]; [discriminate Hlen|].
    exact Hlen.
Qed.

Lemma join_cons (sep p : string) (ps : list string) :
  ps <> [] -> Py.join sep (p :: ps) = p ++ sep ++ Py.join sep ps.
Proof. destruct ps; [contradiction | reflexivity]. Qed.

Lemma split_join (sep : ascii) (s : string) :
  forall n, Py.join (String sep EmptyString) (Py.split sep n s) = s.
Proof.
  induction s as [|c r IH]; intros [|n]; cbn [Py.split]; try reflexivity.
  destruct (Ascii.eqb c sep) eqn:Hc.
  - apply Ascii.eqb_eq in Hc. subst c.
    rewrite join_cons by apply split_nonempty. rewrite IH. reflexivity.
  - pose proof (IH (S n)) as Hj.
    destruct (Py.split sep (S n) r) as [|p ps] eqn:Hs.
    + exfalso. exact (split_nonempty sep (S n) r Hs).
    + destruct ps as [|p' ps'].
      * cbn [Py.join] in *. rewrite Hj. reflexivity.
      * rewrite join_cons in * by discriminate.
        rewrite app_String, Hj. reflexivity.
Qed.

Lemma split_parts_clean (sep : ascii) (s : string) :
  forall n, count_char sep s <= n ->
            Forall (fun p => Py.mem sep p = false) (Py.split sep n s).
Proof.
  induction s as [|c r IH]; intros n Hn.
  - destruct n; repeat constructor.
  - cbn [count_char] in Hn. destruct (Ascii.eqb c sep) eqn:Hc.
    + destruct n as [|n]; [simpl in Hn; lia|].
      cbn [Py.split]. rewrite Hc. constructor; [reflexivity|].
      apply IH. simpl in Hn. lia.
    + simpl in Hn. destruct n as [|n].
      * cbn [Py.split]. constructor; [|constructor].
        cbn [Py.mem]. rewrite Ascii.eqb_sym, Hc. simpl.
        assert (H0 : count_char sep r <= 0) by lia.
        pose proof (IH 0 H0) as Hr. rewrite split_zero in Hr.
        inversion Hr; assumption.
      * cbn [Py.split]. rewrite Hc. pose proof (IH (S n) Hn) as Hr.
        destruct (Py.split sep (S n) r) as [|p ps].
        -- constructor; [|constructor]. cbn [Py.mem].
           rewrite Ascii.eqb_sym, Hc. reflexivity.
        -- inversion Hr; subst. constructor; [|assumption].
           cbn [Py.mem]. rewrite Ascii.eqb_sym, Hc. simpl. assumption.
Qed.

(** ** [format_history]: which lines are accepted *)

(** X1: a history line is accepted when, once the hyphens and spaces at
    its two ends are removed, it holds exactly two semicolons; the three
    fields are then the texts around them, and hold no semicolon. *)
Theorem format_history_two_semicolons :
  forall line : string,
    count_char ";" (Py.strip_chars "- " line) = 2 ->
    exists v d t,
      Py.strip_chars "- " line
      = v ++ String ";" (d ++ String ";" t)
      /\ Py.mem ";" v = false /\ Py.mem ";" d = false
      /\ Py.mem ";" t = false
      /\ format_history line
         = Ok {| version := v; date := d; description := t |}.
Proof.
  intros line Hcount. unfold format_history.
  pose proof (split_length ";" (Py.strip_chars "- " line) 3) as Hlen.
  pose proof (split_join ";" (Py.strip_chars "- " line) 3) as Hjoin.
  pose proof (split_parts_clean ";" (Py.strip_chars "- " line) 3) as Hclean.
  rewrite Hcount in Hlen, Hclean. specialize (Hclean ltac:(lia)).
  destruct (Py.split ";" 3 (Py.strip_chars "- " line))
    as [|v [|d [|t [|]]]]; try discriminate Hlen.
  exists v, d, t.
  inversion Hclean as [|? ? Hv Hrest]; subst.
  inversion Hrest as [|? ? Hd Hrest']; subst.
  inversion Hrest' as [|? ? Ht _]; subst.
  repeat split; auto.
Qed.

Lemma format_history_two_semicolons_witness :
  exists v d t,
    Py.strip_chars "- " "- 1.0;2018-10-30;added analysis quality control -"
    = v ++ String ";" (d ++ String ";" t)
    /\ Py.mem ";" v = false /\ Py.mem ";" d = false /\ Py.mem ";" t = false
    /\ format_history "- 1.0;2018-10-30;added analysis quality control -"
       = Ok {| version := v; date := d; description := t |}.
Proof.
  apply (format_history_two_semicolons
           "- 1.0;2018-10-30;added analysis quality control -").
  reflexivity.
Defined.

(** X2: with any other number of semicolons the line is refused with
    [ParseException]; the message gives the number of parts, which is
    one more than the number of semicolons and at most four, and the
    line as it was passed. *)
Theorem format_history_other_counts :
  forall line : string,
    count_char ";" (Py.strip_chars "- " line) <> 2 ->
    format_history line
    = Raise (ParseException
               ("expected 3 version history parts, but got "
                  ++ Py.str_of_nat
                       (S (Nat.min 3 (count_char ";" (Py.strip_chars "- " line))))
                  ++ " (text: " ++ Py.dquote ++ line ++ Py.dquote ++ ")")).
Proof.
  intros line Hcount. unfold format_history.
  pose proof (split_length ";" (Py.strip_chars "- " line) 3) as Hlen.
  destruct (Py.split ";" 3 (Py.strip_chars "- " line))
    as [|v [|d [|t [|u rest]]]] eqn:Hs; rewrite <- Hlen; try reflexivity.
  exfalso. apply Hcount. cbn [length] in Hlen. lia.
Qed.

Lemma format_history_other_counts_witness :
  format_history "- 1.0;2018-10-30"
  = Raise (ParseException
             ("expected 3 version history parts, but got 2 (text: "
                ++ Py.dquote ++ "- 1.0;2018-10-30" ++ Py.dquote ++ ")")).
Proof.
  apply (format_history_other_counts "- 1.0;2018-10-30").
  vm_compute. intros H. discriminate H.
Defined.

(** ** History blocks *)

(** X3: the entries of a History block are the formatted body lines, one
    per line and in order; the loop succeeds exactly when every line is
    accepted by [format_history]. *)
Theorem history_items_all_lines :
  forall (block_type : string) (lines : list string) (hs : list HistoryEntry),
    history_items block_type lines = Ok hs
    <-> Forall2 (fun line h => format_history line = Ok h) lines hs.
Proof.
  intros bt lines. induction lines as [|x rest IH]; intros hs; simpl.
  - split.
    + intros [= <-]. constructor.
    + intros H. inversion H. reflexivity.
  - split.
    + destruct (format_history x) as [h|[]] eqn:Hx; try discriminate.
      destruct (history_items bt rest) as [hs'|e] eqn:Hrest; simpl; [|discriminate].
      intros [= <-]. constructor; [exact Hx|]. apply IH. reflexivity.
    + intros H. inversion H as [|? h ? hs' Hx Hrest]; subst.
      rewrite Hx. apply IH in Hrest. rewrite Hrest. reflexivity.
Qed.

(** X4: the first body line that [format_history] refuses ends the
    History block: its message is raised again as a [ParseException]
    with the block type in front. *)
Theorem history_items_first_refused :
  forall (block_type : string) (good : list string) (bad : string)
         (rest : list string) (hs : list HistoryEntry) (msg : string),
    Forall2 (fun line h => format_history line = Ok h) good hs ->
    format_history bad = Raise (ParseException msg) ->
    history_items block_type (good ++ bad :: rest)
    = Raise (ParseException
               ("In " ++ Py.dquote ++ block_type ++ Py.dquote
                  ++ " block, " ++ msg)).
Proof.
  intros bt good bad rest hs msg Hgood Hbad.
  induction Hgood as [|x h good hs Hx _ IH]; simpl.
  - rewrite Hbad. reflexivity.
  - rewrite Hx, IH. reflexivity.
Qed.

Lemma history_items_first_refused_witness :
  history_items "History" (["- 1.0;2018-10-30;first"] ++ "- 1.1;second" :: ["- x"])
  = Raise (ParseException
             ("In " ++ Py.dquote ++ "History" ++ Py.dquote ++ " block, "
                ++ ("expected 3 version history parts, but got 2 (text: "
                      ++ Py.dquote ++ "- 1.1;second" ++ Py.dquote ++ ")"))).
Proof.
  apply (history_items_first_refused "History" ["- 1.0;2018-10-30;first"]
           "- 1.1;second" ["- x"]
           [{| version := "1.0"; date := "2018-10-30"; description := "first" |}]).
  - repeat constructor.
  - reflexivity.
Defined.

(** ** What [parse_block] returns for each kind of block *)

Lemma parse_lines_process_inv linesep header body ty nm attrs items :
  parse_lines linesep (header :: body) = Ok (Process ty nm attrs items) ->
  exists st,
    process_lines linesep ty nm initial body = Ok st
    /\ attrs = attributes st /\ items = subsections st
    /\ check_file_lists ty nm items = Ok tt
    /\ in_list ty PROCESS_BLOCKS = true.
Proof.
  unfold parse_lines.
  destruct (Re.match_header header) as [[tyr nmr]|]; [|discriminate].
  destruct (in_list (Py.strip tyr) ["Introduction"; "Literature"]); [discriminate|].
  destruct (in_list (Py.strip tyr) PROCESS_BLOCKS) eqn:Hproc.
  - destruct (process_lines linesep (Py.strip tyr) (Py.strip nmr) initial body)
      as [st|e] eqn:Hloop; simpl; [|discriminate].
    destruct (check_file_lists (Py.strip tyr) (Py.strip nmr) (subsections st))
      as [[]|e] eqn:Hcheck; simpl; [|discriminate].
    intros [= <- <- <- <-]. exists st. auto.
  - destruct (String.eqb (Py.strip tyr) "History"); [|discriminate].
    destruct (history_items (Py.strip tyr) body); discriminate.
Qed.

(** X5: a block that [parse_block] returns carries the type of its
    header line, stripped, and its shape follows the type: free text for
    Introduction and Literature, attributes and subsections for the two
    process types (with the stripped header name), entries for History. *)
Theorem parse_lines_kind :
  forall (linesep : string) (lines : list string) (b : Block),
    parse_lines linesep lines = Ok b ->
    exists header body ty nm,
      lines = header :: body
      /\ Re.match_header header = Some (ty, nm)
      /\ block_type_of b = Py.strip ty
      /\ match b with
         | FreeText t _ => in_list t ["Introduction"; "Literature"] = true
         | Process t n _ _ => in_list t PROCESS_BLOCKS = true /\ n = Py.strip nm
         | History t _ => t = "History"
         end.
Proof.
  intros linesep [|header body] b; [discriminate|].
  unfold parse_lines.
  destruct (Re.match_header header) as [[ty nm]|] eqn:Hhdr; [|discriminate].
  intros H. exists header, body, ty, nm. split; [reflexivity|]. split; [exact Hhdr|].
  destruct (in_list (Py.strip ty) ["Introduction"; "Literature"]) eqn:Hfree.
  { injection H as <-. auto. }
  destruct (in_list (Py.strip ty) PROCESS_BLOCKS) eqn:Hproc.
  { destruct (process_lines linesep (Py.strip ty) (Py.strip nm) initial body)
      as [st|e]; simpl in H; [|discriminate].
    destruct (check_file_lists (Py.strip ty) (Py.strip nm) (subsections st))
      as [[]|e]; simpl in H; [|discriminate].
    injection H as <-. auto. }
  destruct (String.eqb (Py.strip ty) "History") eqn:Hhist; [|discriminate].
  destruct (history_items (Py.strip ty) body) as [hs|e]; simpl in H; [|discriminate].
  injection H as <-. apply String.eqb_eq in Hhist. auto.
Qed.

Lemma parse_lines_kind_witness :
  exists header body ty nm,
    ["# Quality control : counts "; "- A: 1"] = header :: body
    /\ Re.match_header header = Some (ty, nm)
    /\ block_type_of (Process "Quality control" "counts" {["A" := "1"]} [])
       = Py.strip ty
    /\ (in_list "Quality control" PROCESS_BLOCKS = true /\ "counts" = Py.strip nm).
Proof.
  apply (parse_lines_kind nl ["# Quality control : counts "; "- A: 1"]
           (Process "Quality control" "counts" {["A" := "1"]} [])).
  vm_compute. reflexivity.
Defined.

(** ** The records of [extract_filenames] *)

Lemma block_references_parsed linesep lines b :
  parse_lines linesep lines = Ok b ->
  block_references b = List.map file_reference (items_of b).
Proof.
  destruct lines as [|header body]; [discriminate|].
  unfold parse_lines.
  destruct (Re.match_header header) as [[ty nm]|]; [|discriminate].
  destruct (in_list (Py.strip ty) ["Introduction"; "Literature"]) eqn:Hfree.
  { intros [= <-]. unfold block_references. cbn [block_type_of items_of].
    destruct (in_list (Py.strip ty) PROCESS_BLOCKS); reflexivity. }
  destruct (in_list (Py.strip ty) PROCESS_BLOCKS) eqn:Hproc.
  { destruct (process_lines linesep (Py.strip ty) (Py.strip nm) initial body)
      as [st|e]; simpl; [|discriminate].
    destruct (check_file_lists (Py.strip ty) (Py.strip nm) (subsections st))
      as [[]|e]; simpl; [|discriminate].
    intros [= <-]. unfold block_references. cbn [block_type_of items_of].
    rewrite Hproc. reflexivity. }
  destruct (String.eqb (Py.strip ty) "History"); [|discriminate].
  destruct (history_items (Py.strip ty) body) as [hs|e]; simpl; [|discriminate].
  intros [= <-]. unfold block_references. cbn [block_type_of items_of].
  rewrite Hproc. reflexivity.
Qed.

Lemma parse_blocks_references linesep block_strs :
  forall bs,
    parse_blocks linesep block_strs = Ok bs ->
    List.map block_references bs
    = List.map (fun b => List.map file_reference (items_of b)) bs.
Proof.
  induction block_strs as [|x rest IH]; intros bs; simpl.
  - intros [= <-]. reflexivity.
  - destruct (parse_block linesep x) as [b|e] eqn:Hb; simpl; [|discriminate].
    destruct (parse_blocks linesep rest) as [bs'|e] eqn:Hrest; simpl; [|discriminate].
    intros [= <-]. simpl. rewrite (IH bs' eq_refl).
    rewrite (block_references_parsed linesep _ b Hb). reflexivity.
Qed.

(** X6: when the parse succeeds, [extract_filenames] yields one record
    for every subsection of every Process block of the document, in the
    order of the blocks and of the subsections within a block, and
    nothing for the other blocks: the test on the block type leaves no
    subsection out. *)
Theorem extract_filenames_every_subsection :
  forall (linesep : string) (open_read : string -> result string)
         (fp filename : option string) (doc : Document),
    parse_sop linesep open_read fp filename = Ok doc ->
    extract_filenames linesep open_read fp filename
    = Ok (List.concat
            (List.map (fun b => List.map file_reference (items_of b))
                      (blocks doc))).
Proof.
  intros linesep open_read fp filename doc Hdoc.
  unfold extract_filenames. rewrite Hdoc. simpl. f_equal. f_equal.
  unfold parse_sop in Hdoc.
  destruct (if truthy_fp fp && negb (truthy_filename filename)
            then Ok (default EmptyString fp)
            else if truthy_filename filename && truthy_fp fp
                 then open_read (default EmptyString filename)
                 else Raise (ValueError
                        "Either fp or filename must be specified, but not both"))
    as [fulltext|e]; simpl in Hdoc; [|discriminate].
  unfold parse_fulltext in Hdoc.
  destruct (split_blocks fulltext) as [|first rest]; [discriminate|].
  destruct (preamble_dict 0 ∅ (Re.split_newline first)) as [pre|e];
    simpl in Hdoc; [|discriminate].
  destruct (parse_blocks linesep rest) as [bs|e] eqn:Hbs; simpl in Hdoc;
    [|discriminate].
  injection Hdoc as <-. simpl.
  exact (parse_blocks_references linesep rest bs Hbs).
Qed.

Lemma extract_filenames_every_subsection_witness :
  extract_filenames nl (fun _ => Raise OSError) (Some sample_sop) None
  = Ok (List.concat
          (List.map (fun b => List.map file_reference (items_of b))
             (blocks
                {| meta := {["Title" := "Test SOP"]};
                   blocks :=
                     [Process "Analysis" "Cell Segmentation"
                        {["Location" := "./data"]}
                        [{| sub_name := "out_files.txt";
                            sub_attributes :=
                              <["Format" := "txt"]>
                                (<["Location" := "./results"]>
                                   {["Type" := "file list"]}) |}]] |}))).
Proof.
  apply (extract_filenames_every_subsection nl (fun _ => Raise OSError)
           (Some sample_sop) None).
  vm_compute. reflexivity.
Defined.

(** ** The loop over the body of a Process block *)

Lemma alter_names (f : Subsection -> Subsection) :
  (forall s, sub_name (f s) = sub_name s) ->
  forall (l : list Subsection) (i : nat),
    List.map sub_name (alter f i l) = List.map sub_name l.
Proof.
  intros Hf. induction l as [|s l IH]; intros [|i]; simpl; try reflexivity.
  - rewrite Hf. reflexivity.
  - f_equal. apply IH.
Qed.

Lemma store_names st t k v :
  List.map sub_name (subsections (store st t k v))
  = List.map sub_name (subsections st).
Proof.
  destruct t as [|i]; simpl; [reflexivity|].
  apply alter_names. reflexivity.
Qed.

Lemma step_names linesep bt bn st line st' :
  process_line linesep bt bn st line = Ok st' ->
  List.map sub_name (subsections st')
  = (List.map sub_name (subsections st)
       ++ (if opens_subsection line
           then [Py.strip (Py.slice_from 3 line)] else []))%list.
Proof.
  unfold process_line, opens_subsection.
  destruct (Py.startswith line "- ").
  - destruct (Py.split ":" 1 line) as [|key [|val [|]]]; try discriminate.
    intros [= <-]. rewrite store_names. simpl. rewrite app_nil_r. reflexivity.
  - destruct (Py.startswith line "## ").
    + destruct (Py.startswith line "## Not uploaded:"); simpl; intros [= <-].
      * rewrite app_nil_r. reflexivity.
      * simpl. rewrite List.map_app. reflexivity.
    + simpl. rewrite app_nil_r.
      destruct (target st) as [t|]; [|discriminate].
      destruct (Py.truthy_dict (deref st t)); [|discriminate].
      destruct (cur_key st) as [k|]; [|discriminate].
      destruct (Py.truthy_str k); [|discriminate].
      intros [= <-]. apply store_names.
Qed.

Lemma steps_names linesep bt bn lines :
  forall st st',
    process_lines linesep bt bn st lines = Ok st' ->
    List.map sub_name (subsections st')
    = (List.map sub_name (subsections st)
         ++ List.map (fun line => Py.strip (Py.slice_from 3 line))
              (List.filter opens_subsection lines))%list.
Proof.
  induction lines as [|line lines IH]; intros st st'; simpl.
  - intros [= <-]. rewrite app_nil_r. reflexivity.
  - destruct (process_line linesep bt bn st line) as [st1|e] eqn:Hstep; simpl;
      [|discriminate].
    intros Hrest. rewrite (IH st1 st' Hrest), (step_names _ _ _ _ _ _ Hstep).
    rewrite <- app_assoc. f_equal.
    destruct (opens_subsection line); reflexivity.
Qed.

(** X7: the subsections of a parsed Process block are its body lines
    that start with two hashes and a space, those marked as not uploaded
    left out, in the order of the lines; the name of each is the rest of
    its line, stripped.  No other line adds, removes or renames one. *)
Theorem subsections_are_header_lines :
  forall (linesep header : string) (body : list string)
         (ty nm : string) (attrs : dict) (items : list Subsection),
    parse_lines linesep (header :: body) = Ok (Process ty nm attrs items) ->
    List.map sub_name items
    = List.map (fun line => Py.strip (Py.slice_from 3 line))
        (List.filter opens_subsection body).
Proof.
  intros linesep header body ty nm attrs items Hparse.
  destruct (parse_lines_process_inv _ _ _ _ _ _ _ Hparse)
    as (st & Hloop & _ & -> & _).
  exact (steps_names _ _ _ _ _ _ Hloop).
Qed.

Lemma subsections_are_header_lines_witness :
  List.map sub_name
    [{| sub_name := "a.csv"; sub_attributes := {["Format" := "csv"]} |};
     {| sub_name := "b.csv"; sub_attributes := ∅ |}]
  = List.map (fun line => Py.strip (Py.slice_from 3 line))
      (List.filter opens_subsection
         ["- Location: x"; "## a.csv"; "- Format: csv";
          "## Not uploaded: raw"; "##  b.csv "]).
Proof.
  apply (subsections_are_header_lines nl "# Analysis: run"
           ["- Location: x"; "## a.csv"; "- Format: csv";
            "## Not uploaded: raw"; "##  b.csv "]
           "Analysis" "run" {["Location" := "x"]}).
  vm_compute. reflexivity.
Defined.

Lemma attribute_line_split (key val : string) :
  Py.mem ":" key = false ->
  Py.split ":" 1 ("- " ++ key ++ String ":" val) = ["- " ++ key; val].
Proof.
  intros Hkey.
  change ("- " ++ key ++ String ":" val) with (("- " ++ key) ++ String ":" val).
  apply split_first_colon.
  change ("- " ++ key) with (String "-" (String " " key)).
  cbn [Py.mem]. rewrite Hkey. reflexivity.
Qed.

Lemma startswith_hyphen_space (rest : string) :
  Py.startswith ("- " ++ rest) "- " = true.
Proof.
  unfold Py.startswith.
  change ("- " ++ rest) with (String "-" (String " " rest)).
  destruct rest; reflexivity.
Qed.

Lemma attribute_line_step linesep bt bn st key val :
  Py.mem ":" key = false ->
  process_line linesep bt bn st ("- " ++ key ++ String ":" val)
  = let t := match cur_subsec st with Some i => TSub i | None => TBlock end in
    Ok (store {| attributes := attributes st;
                 subsections := subsections st;
                 cur_subsec := cur_subsec st;
                 target := Some t; cur_key := Some (Py.strip key) |}
              t (Py.strip key) (Py.strip val)).
Proof.
  intros Hkey. unfold process_line.
  rewrite startswith_hyphen_space, (attribute_line_split key val Hkey).
  reflexivity.
Qed.

Lemma opens_subsection_step linesep bt bn st line :
  opens_subsection line = true ->
  process_line linesep bt bn st line = Ok (open_subsection st line).
Proof.
  unfold opens_subsection, process_line. intros H.
  apply andb_true_iff in H. destruct H as [H Hup].
  apply andb_true_iff in H. destruct H as [Hattr Hhdr].
  apply negb_true_iff in Hattr. rewrite Hattr, Hhdr, Hup. reflexivity.
Qed.

(** X8: an attribute line that follows a subsection header is stored in
    that subsection and nowhere else: the new subsection has exactly this
    attribute, the attributes of the block and the earlier subsections
    are as before. *)
Theorem attribute_goes_to_open_subsection :
  forall (linesep bt bn : string) (st : locals) (hdr key val : string),
    opens_subsection hdr = true ->
    Py.mem ":" key = false ->
    exists st',
      process_lines linesep bt bn st [hdr; "- " ++ key ++ String ":" val] = Ok st'
      /\ attributes st' = attributes st
      /\ subsections st'
         = (subsections st
              ++ [{| sub_name := Py.strip (Py.slice_from 3 hdr);
                     sub_attributes := {[Py.strip key := Py.strip val]} |}])%list.
Proof.
  intros linesep bt bn st hdr key val Hhdr Hkey.
  cbn [process_lines]. rewrite (opens_subsection_step _ _ _ _ _ Hhdr). simpl bind.
  rewrite (attribute_line_step _ _ _ _ _ _ Hkey). simpl.
  eexists. split; [reflexivity|]. simpl. split; [reflexivity|].
  rewrite <- (Nat.add_0_r (length (subsections st))).
  rewrite alter_app_r. simpl. unfold set_attr. simpl.
  rewrite insert_empty. reflexivity.
Qed.

Lemma attribute_goes_to_open_subsection_witness :
  exists st',
    process_lines nl "Analysis" "x" initial
      ["## out_files.txt"; "- " ++ " Type " ++ String ":" " file list "]
    = Ok st'
    /\ attributes st' = attributes initial
    /\ subsections st'
       = (subsections initial
            ++ [{| sub_name := Py.strip (Py.slice_from 3 "## out_files.txt");
                   sub_attributes := {[Py.strip " Type " := Py.strip " file list "]} |}])%list.
Proof.
  apply (attribute_goes_to_open_subsection nl "Analysis" "x" initial
           "## out_files.txt" " Type " " file list "); reflexivity.
Defined.

Lemma store_lookup_ne st t k v k' :
  k <> k' -> deref (store st t k v) t !! k' = deref st t !! k'.
Proof.
  intros Hne. destruct t as [|i]; simpl.
  - apply lookup_insert_ne. exact Hne.
  - rewrite list_lookup_alter_eq.
    destruct (subsections st !! i) as [s|]; simpl; [|reflexivity].
    apply lookup_insert_ne. exact Hne.
Qed.

Lemma valid_ref_store st t k v t' :
  valid_ref st t' -> valid_ref (store st t k v) t'.
Proof.
  destruct (store_fields st t k v) as (_ & _ & _ & El).
  destruct t'; simpl; [auto | rewrite El; auto].
Qed.

Lemma cur_subsec_valid st :
  consistent st ->
  valid_ref st (match cur_subsec st with Some i => TSub i | None => TBlock end).
Proof.
  intros [Hcur _]. destruct (cur_subsec st) as [i|] eqn:Hi; simpl; [|exact I].
  apply Hcur. reflexivity.
Qed.

(** X9: an attribute line sets its stripped key to its stripped value in
    the current dictionary (the open subsection's, or the block's when no
    subsection is open), replacing whatever the key held, and changes no
    other key of that dictionary. *)
Theorem attribute_line_overwrites :
  forall (linesep bt bn : string) (before : list string) (st : locals)
         (key val : string),
    process_lines linesep bt bn initial before = Ok st ->
    Py.mem ":" key = false ->
    let t := match cur_subsec st with Some i => TSub i | None => TBlock end in
    exists st',
      process_line linesep bt bn st ("- " ++ key ++ String ":" val) = Ok st'
      /\ deref st' t !! Py.strip key = Some (Py.strip val)
      /\ (forall k', Py.strip key <> k' -> deref st' t !! k' = deref st t !! k')
      /\ target st' = Some t /\ cur_key st' = Some (Py.strip key).
Proof.
  intros linesep bt bn before st key val Hbefore Hkey t.
  pose proof (consistent_steps _ _ _ _ _ _ consistent_initial Hbefore) as Hst.
  pose proof (cur_subsec_valid st Hst) as Hvalid. fold t in Hvalid.
  rewrite (attribute_line_step _ _ _ _ _ _ Hkey). fold t.
  eexists. split; [reflexivity|].
  match goal with |- context [store ?s0 t ?k ?v] =>
    destruct (store_fields s0 t k v) as (_ & Et & Ek & _);
    pose proof (store_lookup s0 t k v Hvalid) as Hl;
    pose proof (fun k' => store_lookup_ne s0 t k v k') as Hn
  end.
  repeat split; auto.
Qed.

Lemma attribute_line_overwrites_witness :
  exists st',
    process_line nl "Analysis" "x"
      (store {| attributes := ∅; subsections := []; cur_subsec := None;
                target := Some TBlock; cur_key := Some "Kind" |}
             TBlock "Kind" "old")
      ("- " ++ "Kind " ++ String ":" " new") = Ok st'
    /\ deref st' TBlock !! Py.strip "Kind " = Some (Py.strip " new")
    /\ (forall k', Py.strip "Kind " <> k' ->
          deref st' TBlock !! k'
          = deref (store {| attributes := ∅; subsections := []; cur_subsec := None;
                            target := Some TBlock; cur_key := Some "Kind" |}
                         TBlock "Kind" "old") TBlock !! k')
    /\ target st' = Some TBlock /\ cur_key st' = Some (Py.strip "Kind ").
Proof.
  exact (attribute_line_overwrites nl "Analysis" "x" ["- Kind: old"]
           (store {| attributes := ∅; subsections := []; cur_subsec := None;
                     target := Some TBlock; cur_key := Some "Kind" |}
                  TBlock "Kind" "old")
           "Kind " " new" eq_refl eq_refl).
Defined.

(** X10: a continuation line that follows an attribute line with a
    non-empty key extends that attribute: the value becomes the stripped
    value of the attribute line, then [os.linesep] unless that value is
    empty, then the stripped continuation line. *)
Theorem continuation_extends_attribute :
  forall (linesep bt bn : string) (before : list string) (st : locals)
         (key val cont : string),
    process_lines linesep bt bn initial before = Ok st ->
    Py.mem ":" key = false ->
    Py.truthy_str (Py.strip key) = true ->
    is_continuation cont = true ->
    let t := match cur_subsec st with Some i => TSub i | None => TBlock end in
    exists st',
      process_lines linesep bt bn st ["- " ++ key ++ String ":" val; cont] = Ok st'
      /\ deref st' t !! Py.strip key
         = Some (Py.strip val
                   ++ (if Py.truthy_str (Py.strip val) then linesep else EmptyString)
                   ++ Py.strip cont).
Proof.
  intros linesep bt bn before st key val cont Hbefore Hkey Hk Hcont t.
  pose proof (consistent_steps _ _ _ _ _ _ consistent_initial Hbefore) as Hst.
  pose proof (cur_subsec_valid st Hst) as Hvalid. fold t in Hvalid.
  apply andb_true_iff in Hcont. destruct Hcont as [Hc1 Hc2].
  apply negb_true_iff in Hc1, Hc2.
  cbn [process_lines]. rewrite (attribute_line_step _ _ _ _ _ _ Hkey). fold t.
  cbv zeta. simpl bind.
  set (st0 := {| attributes := attributes st; subsections := subsections st;
                 cur_subsec := cur_subsec st; target := Some t;
                 cur_key := Some (Py.strip key) |}).
  set (st1 := store st0 t (Py.strip key) (Py.strip val)).
  assert (Hvalid0 : valid_ref st0 t) by exact Hvalid.
  destruct (store_fields st0 t (Py.strip key) (Py.strip val)) as (_ & Et & Ek & _).
  fold st1 in Et, Ek. simpl in Et, Ek.
  pose proof (store_lookup st0 t (Py.strip key) (Py.strip val) Hvalid0) as Hl.
  fold st1 in Hl.
  unfold process_line. rewrite Hc1, Hc2, Et.
  rewrite (truthy_dict_key _ _ (mk_is_Some _ _ Hl)), Ek, Hk.
  unfold getitem. rewrite Hl. simpl default. simpl bind.
  eexists. split; [reflexivity|].
  apply store_lookup. apply valid_ref_store. exact Hvalid0.
Qed.

Lemma continuation_extends_attribute_witness :
  exists st',
    process_lines nl "Analysis" "x" initial
      ["- " ++ "Description" ++ String ":" " first"; "second"] = Ok st'
    /\ deref st' TBlock !! Py.strip "Description"
       = Some (Py.strip " first"
                 ++ (if Py.truthy_str (Py.strip " first") then nl else EmptyString)
                 ++ Py.strip "second").
Proof.
  apply (continuation_extends_attribute nl "Analysis" "x" [] initial
           "Description" " first" "second"); reflexivity.
Defined.

Lemma header_step_keeps_target linesep bt bn st line :
  Py.startswith line "## " = true ->
  exists st', process_line linesep bt bn st line = Ok st'
              /\ target st' = target st.
Proof.
  intros Hhdr. unfold process_line.
  rewrite (subsection_header_not_attribute line Hhdr), Hhdr.
  destruct (negb (Py.startswith line "## Not uploaded:")); eexists; split;
    reflexivity.
Qed.

(** X11: in a Process block, a continuation line that comes before the
    first attribute line, with or without subsection headers before it,
    ends the loop with [UnboundLocalError] on the local [target]: the
    [ParseException] of the else branch is not reached. *)
Theorem continuation_before_first_attribute :
  forall (linesep bt bn : string) (hdrs : list string) (cont : string)
         (rest : list string),
    Forall (fun line => Py.startswith line "## " = true) hdrs ->
    is_continuation cont = true ->
    process_lines linesep bt bn initial (hdrs ++ cont :: rest)
    = Raise (UnboundLocalError "target").
Proof.
  intros linesep bt bn hdrs cont rest Hhdrs Hcont.
  apply andb_true_iff in Hcont. destruct Hcont as [Hc1 Hc2].
  apply negb_true_iff in Hc1, Hc2.
  assert (Hgen : forall st, target st = None ->
            process_lines linesep bt bn st (hdrs ++ cont :: rest)
            = Raise (UnboundLocalError "target")).
  { induction Hhdrs as [|hdr hdrs Hhdr _ IH]; intros st Ht.
    - simpl. unfold process_line. rewrite Hc1, Hc2, Ht. reflexivity.
    - destruct (header_step_keeps_target linesep bt bn st hdr Hhdr)
        as (st' & Hstep & Ht').
      rewrite <- List.app_comm_cons. cbn [process_lines]. rewrite Hstep. simpl bind.
      apply IH. rewrite Ht'. exact Ht. }
  apply Hgen. reflexivity.
Qed.

Lemma continuation_before_first_attribute_witness :
  process_lines nl "Analysis" "A" initial
    (["## out_files.txt"; "## Not uploaded: raw"] ++ "stray line" :: ["- K: v"])
  = Raise (UnboundLocalError "target").
Proof.
  apply (continuation_before_first_attribute nl "Analysis" "A"
           ["## out_files.txt"; "## Not uploaded: raw"] "stray line" ["- K: v"]).
  - repeat constructor.
  - reflexivity.
Defined.

(** ** The check of file lists *)

Lemma match_files_txt_suffix (p : string) :
  Py.mem Py.LF p = false -> Re.match_files_txt (p ++ "_files.txt") = true.
Proof.
  induction p as [|c p IH]; intros Hp.
  - reflexivity.
  - cbn [Py.mem] in Hp. apply orb_false_iff in Hp. destruct Hp as [Hc Hp].
    rewrite Ascii.eqb_sym in Hc.
    rewrite app_String. cbn [Re.match_files_txt]. rewrite Hc, (IH Hp).
    apply orb_true_r.
Qed.

(** X12: the check after the loop accepts every block whose subsections
    of type file list have a name that ends with [_files.txt]; the
    subsections of another type, or without a type, are not looked at. *)
Theorem file_list_names_accepted :
  forall (bt bn : string) (subsecs : list Subsection),
    Forall (fun subsec =>
              sub_attributes subsec !! "Type" <> Some "file list"
              \/ exists p, sub_name subsec = p ++ "_files.txt"
                           /\ Py.mem Py.LF p = false) subsecs ->
    check_file_lists bt bn subsecs = Ok tt.
Proof.
  intros bt bn subsecs Hall. induction Hall as [|s rest Hs _ IH]; simpl.
  - reflexivity.
  - assert (Hok : bad_file_list s = false).
    { unfold bad_file_list, contains, getitem. destruct Hs as [Hty|(p & Hn & Hp)].
      - destruct (sub_attributes s !! "Type") as [v|]; [|reflexivity].
        simpl. destruct (String.eqb_spec v "file list") as [->|Hne];
          [contradiction | reflexivity].
      - rewrite Hn, (match_files_txt_suffix p Hp). simpl. apply andb_false_r. }
    rewrite Hok. exact IH.
Qed.

Lemma file_list_names_accepted_witness :
  check_file_lists "Analysis" "x"
    [{| sub_name := "notes"; sub_attributes := {["Type" := "text"]} |};
     {| sub_name := "raw"; sub_attributes := ∅ |};
     {| sub_name := "out_files.txt";
        sub_attributes := {["Type" := "file list"]} |}]
  = Ok tt.
Proof.
  apply (file_list_names_accepted "Analysis" "x").
  constructor; [left; vm_compute; discriminate|].
  constructor; [left; vm_compute; discriminate|].
  constructor; [|constructor].
  right. exists "out". split; reflexivity.
Defined.

(** ** The preamble *)

Lemma split_no_separator (sep : ascii) (n : nat) (s : string) :
  Py.mem sep s = false -> Py.split sep n s = [s].
Proof.
  revert n. induction s as [|c r IH]; intros [|n] Hs; try reflexivity.
  cbn [Py.mem] in Hs. apply orb_false_iff in Hs. destruct Hs as [Hc Hs].
  rewrite Ascii.eqb_sym in Hc. cbn [Py.split]. rewrite Hc, (IH (S n) Hs).
  reflexivity.
Qed.

Lemma split_with_separator (sep : ascii) (s : string) :
  Py.mem sep s = true -> exists k v, Py.split sep 1 s = [k; v].
Proof.
  induction s as [|c r IH]; intros Hs; [discriminate|].
  cbn [Py.split]. destruct (Ascii.eqb c sep) eqn:Hc.
  - rewrite split_zero. eauto.
  - cbn [Py.mem] in Hs. rewrite Ascii.eqb_sym, Hc in Hs. simpl in Hs.
    destruct (IH Hs) as (k & v & ->). eauto.
Qed.

(** X13: the first preamble line without a colon ends the parse with
    the [ValueError] of [dict], which names the position of the line in
    the preamble; the lines before it may be anything with a colon. *)
Theorem preamble_line_without_colon :
  forall (good : list string) (bad : string) (rest : list string),
    Forall (fun line => Py.mem ":" line = true) good ->
    Py.mem ":" bad = false ->
    preamble_dict 0 ∅ (good ++ bad :: rest)
    = Raise (ValueError
               ("dictionary update sequence element #"
                  ++ Py.str_of_nat (length good)
                  ++ " has length 1; 2 is required")).
Proof.
  intros good bad rest Hgood Hbad.
  assert (Hgen : forall i d,
            preamble_dict i d (good ++ bad :: rest)
            = Raise (ValueError
                       ("dictionary update sequence element #"
                          ++ Py.str_of_nat (i + length good)
                          ++ " has length 1; 2 is required"))).
  { induction Hgood as [|line good Hline _ IH]; intros i d.
    - rewrite app_nil_l. cbn [preamble_dict].
      rewrite (split_no_separator ":" 1 bad Hbad). simpl.
      rewrite Nat.add_0_r. reflexivity.
    - rewrite <- List.app_comm_cons. cbn [preamble_dict].
      destruct (split_with_separator ":" line Hline) as (k & v & ->). simpl.
      rewrite IH. rewrite Nat.add_succ_r. reflexivity. }
  exact (Hgen 0 ∅).
Qed.

Lemma preamble_line_without_colon_witness :
  preamble_dict 0 ∅ (["# Title: T"; "# Version: 2"] ++ "Draft" :: ["# Date: x"])
  = Raise (ValueError
             ("dictionary update sequence element #"
                ++ Py.str_of_nat (length ["# Title: T"; "# Version: 2"])
                ++ " has length 1; 2 is required")).
Proof.
  apply (preamble_line_without_colon ["# Title: T"; "# Version: 2"] "Draft"
           ["# Date: x"]).
  - repeat constructor.
  - reflexivity.
Defined.

Lemma preamble_dict_app (l1 l2 : list string) :
  forall i d,
    preamble_dict i d (l1 ++ l2)
    = bind (preamble_dict i d l1)
           (fun d1 => preamble_dict (i + length l1) d1 l2).
Proof.
  induction l1 as [|line l1 IH]; intros i d.
  - simpl. rewrite Nat.add_0_r. reflexivity.
  - rewrite <- List.app_comm_cons. cbn [preamble_dict].
    destruct (List.map (Py.strip_chars "# ") (Py.split ":" 1 line))
      as [|k [|v [|]]]; try reflexivity.
    rewrite IH. simpl. rewrite Nat.add_succ_r. reflexivity.
Qed.

(** X14: in the metadata of a parsed preamble every line has written its
    key, and a later line with the same key replaces the value of an
    earlier one: the value of the key of the last line is the value of
    that line. *)
Theorem preamble_last_line_wins :
  forall (lines : list string) (key val : string) (d : dict),
    Py.mem ":" key = false ->
    preamble_dict 0 ∅ (lines ++ [key ++ String ":" val]) = Ok d ->
    d !! Py.strip_chars "# " key = Some (Py.strip_chars "# " val).
Proof.
  intros lines key val d Hkey. rewrite preamble_dict_app.
  destruct (preamble_dict 0 ∅ lines) as [d1|e]; simpl bind; [|discriminate].
  cbn [preamble_dict]. rewrite (split_first_colon key val Hkey). simpl.
  intros [= <-]. apply lookup_insert_eq.
Qed.

Lemma preamble_last_line_wins_witness :
  ({["Title" := "Second"]} : dict) !! Py.strip_chars "# " "# Title"
  = Some (Py.strip_chars "# " " Second").
Proof.
  apply (preamble_last_line_wins ["# Title: First"] "# Title" " Second").
  - reflexivity.
  - vm_compute. reflexivity.
Defined.

(** ** Comments *)

Lemma prefix_empty (s : string) : String.prefix EmptyString s = true.
Proof. destruct s; reflexivity. Qed.

Lemma has_close_tail (n : nat) :
  forall s, Re.has_close s = false -> Re.has_close (Py.slice_from n s) = false.
Proof.
  induction n as [|n IH]; intros s Hs; [destruct s; exact Hs|].
  destruct s as [|c r]; [reflexivity|].
  cbn [Py.slice_from]. apply IH.
  cbn [Re.has_close] in Hs. apply orb_false_iff in Hs. tauto.
Qed.

Lemma no_close_unchanged (text : string) :
  Re.has_close text = false -> Re.sub_comments false text = text.
Proof.
  induction text as [|c r IH]; intros Hclose.
  - reflexivity.
  - cbn [Re.sub_comments].
    rewrite (has_close_tail 4 _ Hclose), andb_false_r.
    cbn [Re.has_close] in Hclose. apply orb_false_iff in Hclose.
    rewrite IH by tauto. reflexivity.
Qed.

(** X15: a text in which no comment is closed, that is, without the
    closing marker, comes out of the comment stripper unchanged, opening
    markers included. *)
Theorem strip_comments_without_closing_marker :
  forall text : string,
    Re.has_close text = false -> Re.strip_comments text = text.
Proof.
  intros text Hclose. unfold Re.strip_comments.
  apply no_close_unchanged. exact Hclose.
Qed.

Lemma strip_comments_without_closing_marker_witness :
  Re.strip_comments "# Title: T <!-- draft -> never closed"
  = "# Title: T <!-- draft -> never closed".
Proof.
  apply (strip_comments_without_closing_marker
           "# Title: T <!-- draft -> never closed").
  reflexivity.
Defined.

Lemma has_close_after (c rest : string) :
  Re.has_close (c ++ "-->" ++ rest) = true.
Proof.
  induction c as [|a c IH].
  - rewrite app_Empty.
    change ("-->" ++ rest) with (String "-" (String "-" (String ">" rest))).
    cbn [Re.has_close]. unfold Py.startswith. cbn [String.prefix]. simpl.
    rewrite prefix_empty. reflexivity.
  - rewrite app_String. cbn [Re.has_close]. rewrite IH. apply orb_true_r.
Qed.

Lemma not_closing_inside (a : ascii) (c rest : string) :
  Py.mem ">" (String a c) = false ->
  Py.startswith (String a c ++ "-->" ++ rest) "-->" = false.
Proof.
  unfold Py.startswith. intros Hc.
  rewrite app_String. cbn [String.prefix].
  destruct (ascii_dec "-" a) as [<-|]; [|reflexivity].
  destruct c as [|b c].
  - rewrite app_Empty.
    change ("-->" ++ rest) with (String "-" (String "-" (String ">" rest))).
    reflexivity.
  - rewrite app_String. cbn [String.prefix].
    destruct (ascii_dec "-" b) as [<-|]; [|reflexivity].
    destruct c as [|d c].
    + rewrite app_Empty.
      change ("-->" ++ rest) with (String "-" (String "-" (String ">" rest))).
      reflexivity.
    + rewrite app_String. cbn [String.prefix].
      destruct (ascii_dec ">" d) as [<-|]; [|reflexivity].
      vm_compute in Hc. discriminate Hc.
Qed.

Lemma comment_body_skipped (c rest : string) :
  Py.mem ">" c = false ->
  Re.sub_comments true (c ++ "-->" ++ rest) = Re.sub_comments false rest.
Proof.
  induction c as [|a c IH]; intros Hc.
  - rewrite app_Empty.
    change ("-->" ++ rest) with (String "-" (String "-" (String ">" rest))).
    cbn [Re.sub_comments]. unfold Py.startswith. cbn [String.prefix]. simpl.
    rewrite prefix_empty. reflexivity.
  - pose proof (not_closing_inside a c rest Hc) as Hnot.
    rewrite app_String in *. cbn [Re.sub_comments]. rewrite Hnot.
    apply IH. cbn [Py.mem] in Hc. apply orb_false_iff in Hc. tauto.
Qed.

(** X16: a comment is removed with its two markers and nothing else:
    when the text before the opening marker holds no [<] and the comment
    holds no [>], the result is the text before, followed by the stripped
    text after the closing marker. *)
Theorem strip_comments_removes_comment :
  forall before comment after : string,
    Py.mem "<" before = false ->
    Py.mem ">" comment = false ->
    Re.strip_comments (before ++ "<!--" ++ comment ++ "-->" ++ after)
    = before ++ Re.strip_comments after.
Proof.
  unfold Re.strip_comments. intros before comment after Hb Hc.
  induction before as [|a before IH].
  - rewrite !app_Empty.
    change ("<!--" ++ comment ++ "-->" ++ after)
      with (String "<" (String "!" (String "-" (String "-"
              (comment ++ "-->" ++ after))))).
    cbn [Re.sub_comments Py.slice_from]. unfold Py.startswith.
    cbn [String.prefix]. simpl. rewrite prefix_empty.
    rewrite has_close_after. simpl.
    apply comment_body_skipped. exact Hc.
  - cbn [Py.mem] in Hb. apply orb_false_iff in Hb. destruct Hb as [Ha Hb].
    rewrite !(app_String a before). cbn [Re.sub_comments].
    assert (Hnot : Py.startswith
                     (String a (before ++ "<!--" ++ comment ++ "-->" ++ after))
                     "<!--" = false).
    { unfold Py.startswith. cbn [String.prefix].
      destruct (ascii_dec "<" a) as [<-|]; [discriminate Ha | reflexivity]. }
    rewrite Hnot. simpl. rewrite (IH Hb). reflexivity.
Qed.

Lemma strip_comments_removes_comment_witness :
  Re.strip_comments ("Before" ++ "<!--" ++ " hidden " ++ "-->" ++ "After")
  = "Before" ++ Re.strip_comments "After".
Proof.
  apply (strip_comments_removes_comment "Before" " hidden " "After"); reflexivity.
Defined.

(** ** Blank and non-blank text *)

Lemma all_sat_app (P : ascii -> bool) (a b : string) :
  all_sat P (a ++ b) = all_sat P a && all_sat P b.
Proof.
  induction a as [|c a IH]; [reflexivity|].
  rewrite app_String. cbn [all_sat]. rewrite IH. apply andb_assoc.
Qed.

Lemma lstrip_all (P : ascii -> bool) (s : string) :
  all_sat P s = true -> Py.lstrip P s = EmptyString.
Proof.
  induction s as [|c r IH]; [reflexivity|].
  cbn [all_sat Py.lstrip]. intros H. apply andb_true_iff in H.
  destruct H as [-> Hr]. apply IH. exact Hr.
Qed.

Lemma strip_empty_blank (s : string) :
  Py.strip s = EmptyString <-> all_sat Py.is_space s = true.
Proof.
  unfold Py.strip. split.
  - intros Hs.
    destruct (lstrip_split Py.is_space s) as (p & Es & Hp & _).
    destruct (rstrip_split Py.is_space (Py.lstrip Py.is_space s)) as (q & Em & Hq & _).
    rewrite Hs, app_Empty in Em. rewrite Es, Em, all_sat_app, Hp, Hq. reflexivity.
  - intros Hs. rewrite (lstrip_all _ _ Hs). reflexivity.
Qed.

Lemma nonblank_ink (s : string) :
  nonblank s = true <-> all_sat Py.is_space s = false.
Proof.
  unfold nonblank, Py.truthy_str. rewrite negb_true_iff, String.eqb_neq.
  rewrite strip_empty_blank. destruct (all_sat Py.is_space s); split; congruence.
Qed.

Lemma tokens_ink (s : string) :
  all_sat Py.is_space s = false -> existsb ink_token (Re.tokens s) = true.
Proof.
  induction s as [|c r IH]; [discriminate|].
  cbn [all_sat]. intros H.
  assert (Hr : Py.is_space c = true -> existsb ink_token (Re.tokens r) = true).
  { intros Hc. rewrite Hc in H. apply IH. exact H. }
  cbn [Re.tokens]. destruct (Ascii.eqb c Py.LF) eqn:Hlf.
  - apply Ascii.eqb_eq in Hlf. subst c. cbn [existsb ink_token]. apply Hr. reflexivity.
  - destruct r as [|c' r'].
    + cbn [existsb ink_token]. destruct (Py.is_space c) eqn:Hc; [|reflexivity].
      specialize (Hr eq_refl). discriminate Hr.
    + destruct (Ascii.eqb c Py.CR && Ascii.eqb c' Py.LF) eqn:Hcr.
      * apply andb_true_iff in Hcr. destruct Hcr as [Hc Hc'].
        apply Ascii.eqb_eq in Hc, Hc'. subst c c'.
        specialize (Hr eq_refl). cbn [Re.tokens] in Hr.
        rewrite Ascii.eqb_refl in Hr. cbn [existsb ink_token] in *. exact Hr.
      * cbn [existsb ink_token]. destruct (Py.is_space c) eqn:Hc; [|reflexivity].
        simpl. apply Hr. reflexivity.
Qed.

Lemma split_breaks_ink (ts : list Re.token) :
  forall cur,
    all_sat Py.is_space cur = false \/ existsb ink_token ts = true ->
    List.filter nonblank (Re.split_breaks cur ts) <> [].
Proof.
  induction ts as [|[c|b] ts IH]; intros cur Hink; cbn [Re.split_breaks].
  - destruct Hink as [Hcur|Hts]; [|discriminate].
    cbn [List.filter]. rewrite (proj2 (nonblank_ink cur) Hcur). discriminate.
  - apply IH. cbn [existsb ink_token] in Hink.
    rewrite all_sat_app. cbn [all_sat]. rewrite andb_true_r.
    destruct Hink as [Hcur|Hts].
    + left. rewrite Hcur. reflexivity.
    + apply orb_true_iff in Hts. destruct Hts as [Hc|Hts]; [left|right; exact Hts].
      apply negb_true_iff in Hc. rewrite Hc. apply andb_false_r.
  - cbn [List.filter]. cbn [existsb ink_token] in Hink.
    destruct Hink as [Hcur|Hts].
    + rewrite (proj2 (nonblank_ink cur) Hcur). discriminate.
    + destruct (nonblank cur); [discriminate|].
      apply IH. right. exact Hts.
Qed.

Lemma nonblank_has_line (block_str : string) :
  nonblank block_str = true ->
  List.filter nonblank (Re.split_newline block_str) <> [].
Proof.
  intros H. apply split_breaks_ink. right. apply tokens_ink.
  apply nonblank_ink. exact H.
Qed.

(** ** The exceptions of a parse *)

Lemma process_line_failure linesep bt bn st line e :
  consistent st ->
  process_line linesep bt bn st line = Raise e -> parse_failure e.
Proof.
  intros [_ Htgt]. unfold process_line.
  destruct (Py.startswith line "- ").
  - destruct (Py.split ":" 1 line) as [|key [|val [|]]]; intros [= <-]; exact I.
  - destruct (Py.startswith line "## ").
    + destruct (negb (Py.startswith line "## Not uploaded:")); discriminate.
    + destruct (target st) as [t|] eqn:Ht; [|intros [= <-]; reflexivity].
      destruct (Htgt t eq_refl) as (_ & k & -> & _).
      destruct (Py.truthy_dict (deref st t)); [|intros [= <-]; exact I].
      destruct (Py.truthy_str k); [discriminate | intros [= <-]; exact I].
Qed.

Lemma process_lines_failure linesep bt bn lines :
  forall st e,
    consistent st ->
    process_lines linesep bt bn st lines = Raise e -> parse_failure e.
Proof.
  induction lines as [|line lines IH]; intros st e Hst; simpl; [discriminate|].
  destruct (process_line linesep bt bn st line) as [st1|e1] eqn:Hstep; simpl.
  - apply IH. exact (consistent_step _ _ _ _ _ _ Hst Hstep).
  - intros [= <-]. exact (process_line_failure _ _ _ _ _ _ Hst Hstep).
Qed.

Lemma check_file_lists_failure bt bn subsecs e :
  check_file_lists bt bn subsecs = Raise e -> parse_failure e.
Proof.
  induction subsecs as [|s rest IH]; simpl; [discriminate|].
  destruct (bad_file_list s); [intros [= <-]; exact I | exact IH].
Qed.

Lemma format_history_failure line e :
  format_history line = Raise e -> exists msg, e = ParseException msg.
Proof.
  unfold format_history.
  destruct (Py.split ";" 3 (Py.strip_chars "- " line)) as [|v [|d [|t [|]]]];
    intros [= <-]; eauto.
Qed.

Lemma history_items_failure bt lines e :
  history_items bt lines = Raise e -> parse_failure e.
Proof.
  induction lines as [|x rest IH]; simpl; [discriminate|].
  destruct (format_history x) as [h|e1] eqn:Hx.
  - destruct (history_items bt rest) as [hs|e2]; simpl; [discriminate|].
    intros [= <-]. apply IH. reflexivity.
  - destruct (format_history_failure x e1 Hx) as [msg ->].
    intros [= <-]. exact I.
Qed.

Lemma parse_lines_failure linesep header body e :
  parse_lines linesep (header :: body) = Raise e -> parse_failure e.
Proof.
  unfold parse_lines.
  destruct (Re.match_header header) as [[ty nm]|]; [|intros [= <-]; exact I].
  destruct (in_list (Py.strip ty) ["Introduction"; "Literature"]); [discriminate|].
  destruct (in_list (Py.strip ty) PROCESS_BLOCKS).
  - destruct (process_lines linesep (Py.strip ty) (Py.strip nm) initial body)
      as [st|e1] eqn:Hloop; simpl.
    + destruct (check_file_lists (Py.strip ty) (Py.strip nm) (subsections st))
        as [[]|e2] eqn:Hcheck; simpl; [discriminate|].
      intros [= <-]. exact (check_file_lists_failure _ _ _ _ Hcheck).
    + intros [= <-].
      exact (process_lines_failure _ _ _ _ _ _ consistent_initial Hloop).
  - destruct (String.eqb (Py.strip ty) "History"); [|intros [= <-]; exact I].
    destruct (history_items (Py.strip ty) body) as [hs|e1] eqn:Hh; simpl;
      [discriminate|].
    intros [= <-]. exact (history_items_failure _ _ _ Hh).
Qed.

Lemma parse_block_failure linesep block_str e :
  nonblank block_str = true ->
  parse_block linesep block_str = Raise e -> parse_failure e.
Proof.
  intros Hnb. unfold parse_block.
  pose proof (nonblank_has_line block_str Hnb) as Hne.
  destruct (List.filter nonblank (Re.split_newline block_str)) as [|header body];
    [contradiction|].
  apply parse_lines_failure.
Qed.

Lemma parse_blocks_failure linesep block_strs e :
  Forall (fun x => nonblank x = true) block_strs ->
  parse_blocks linesep block_strs = Raise e -> parse_failure e.
Proof.
  intros Hall. induction Hall as [|x rest Hx _ IH]; simpl; [discriminate|].
  destruct (parse_block linesep x) as [b|e1] eqn:Hb; simpl.
  - destruct (parse_blocks linesep rest) as [bs|e2]; simpl; [discriminate|].
    intros [= <-]. apply IH. reflexivity.
  - intros [= <-]. exact (parse_block_failure _ _ _ Hx Hb).
Qed.

Lemma preamble_dict_failure lines :
  forall i d e, preamble_dict i d lines = Raise e -> parse_failure e.
Proof.
  induction lines as [|line rest IH]; intros i d e; simpl; [discriminate|].
  destruct (List.map (Py.strip_chars "# ") (Py.split ":" 1 line))
    as [|k [|v [|]]]; try (intros [= <-]; exact I).
  apply IH.
Qed.

Lemma split_blocks_nonblank (fulltext : string) :
  Forall (fun x => nonblank x = true) (split_blocks fulltext).
Proof.
  unfold split_blocks. apply List.Forall_forall. intros x Hx.
  apply List.filter_In in Hx. tauto.
Qed.

(** X17: the exceptions of [parse_sop] on a text read from a handle.
    [IndexError] is raised only for a document without a non-blank
    segment; a block never raises it, since a non-blank segment has a
    non-blank first line.  Every other failure is a [ParseException], a
    [ValueError], or [UnboundLocalError] on [target]. *)
Theorem parse_sop_exceptions :
  forall (linesep : string) (open_read : string -> result string)
         (text : string) (e : exn),
    parse_sop linesep open_read (Some text) None = Raise e ->
    (e = IndexError /\ split_blocks text = []) \/ parse_failure e.
Proof.
  intros linesep open_read text e.
  change (parse_sop linesep open_read (Some text) None)
    with (parse_fulltext linesep text).
  unfold parse_fulltext.
  pose proof (split_blocks_nonblank text) as Hnb.
  destruct (split_blocks text) as [|first rest]; [intros [= <-]; auto|].
  destruct (preamble_dict 0 ∅ (Re.split_newline first)) as [pre|e1] eqn:Hpre; simpl.
  - destruct (parse_blocks linesep rest) as [bs|e2] eqn:Hbs; simpl; [discriminate|].
    intros [= <-]. right. inversion Hnb; subst.
    exact (parse_blocks_failure linesep rest e2 ltac:(assumption) Hbs).
  - intros [= <-]. right. exact (preamble_dict_failure _ _ _ _ Hpre).
Qed.

Lemma parse_sop_exceptions_witness :
  (UnboundLocalError "target" = IndexError /\ split_blocks sample_stray_line = [])
  \/ parse_failure (UnboundLocalError "target").
Proof.
  apply (parse_sop_exceptions nl (fun _ => Raise OSError) sample_stray_line).
  vm_compute. reflexivity.
Defined.

(** ** Texts built from lines *)

Lemma str_app_assoc (a b c : string) : (a ++ b) ++ c = a ++ b ++ c.
Proof.
  induction a as [|x a IH]; [reflexivity|].
  rewrite !(app_String x). rewrite IH. reflexivity.
Qed.

Lemma str_app_empty_r (a : string) : a ++ EmptyString = a.
Proof.
  induction a as [|x a IH]; [reflexivity|].
  rewrite app_String, IH. reflexivity.
Qed.

Lemma plain_cons (c : ascii) (r : string) :
  plain (String c r) = true ->
  Ascii.eqb c Py.LF = false /\ Ascii.eqb c Py.CR = false /\ plain r = true.
Proof.
  unfold plain. cbn [Py.mem]. intros H.
  apply andb_true_iff in H. destruct H as [H1 H2].
  apply negb_true_iff, orb_false_iff in H1, H2.
  destruct H1 as [H1 H1'], H2 as [H2 H2'].
  rewrite Ascii.eqb_sym in H1, H2. rewrite H1', H2'. auto.
Qed.

Lemma tokens_plain_cons (c : ascii) (x : string) :
  Ascii.eqb c Py.LF = false -> Ascii.eqb c Py.CR = false ->
  Re.tokens (String c x) = Re.Chr c :: Re.tokens x.
Proof.
  intros Hlf Hcr. cbn [Re.tokens]. rewrite Hlf, Hcr.
  destruct x; reflexivity.
Qed.

Lemma tokens_break (brk x : string) :
  line_break brk -> Re.tokens (brk ++ x) = Re.Brk brk :: Re.tokens x.
Proof.
  intros [-> | ->].
  - change (nl ++ x) with (String Py.LF x). cbn [Re.tokens]. reflexivity.
  - change (crlf ++ x) with (String Py.CR (String Py.LF x)).
    cbn [Re.tokens]. reflexivity.
Qed.

Lemma split_breaks_plain (s : string) :
  plain s = true ->
  forall cur rest,
    Re.split_breaks cur (Re.tokens (s ++ rest))
    = Re.split_breaks (cur ++ s) (Re.tokens rest).
Proof.
  induction s as [|c r IH]; intros Hs cur rest.
  - rewrite app_Empty, str_app_empty_r. reflexivity.
  - destruct (plain_cons c r Hs) as (Hlf & Hcr & Hr).
    rewrite app_String, (tokens_plain_cons c _ Hlf Hcr).
    cbn [Re.split_breaks]. rewrite (IH Hr), str_app_assoc. reflexivity.
Qed.

Lemma split_runs_plain (s : string) :
  plain s = true ->
  forall cur rest,
    Re.split_runs cur [] (Re.tokens (s ++ rest))
    = Re.split_runs (cur ++ s) [] (Re.tokens rest).
Proof.
  induction s as [|c r IH]; intros Hs cur rest.
  - rewrite app_Empty, str_app_empty_r. reflexivity.
  - destruct (plain_cons c r Hs) as (Hlf & Hcr & Hr).
    rewrite app_String, (tokens_plain_cons c _ Hlf Hcr).
    cbn [Re.split_runs Re.close_run]. rewrite (IH Hr), str_app_assoc. reflexivity.
Qed.

Lemma join_head (sep : string) (c : ascii) (r : string) (ls : list string) :
  Py.join sep (String c r :: ls) = String c (Py.join sep (r :: ls)).
Proof. destruct ls; reflexivity. Qed.

Lemma segment_line_cons (line : string) :
  segment_line line = true ->
  exists c r, line = String c r /\ plain line = true.
Proof.
  unfold segment_line. intros H. apply andb_true_iff in H. destruct H as [Hp Hne].
  destruct line as [|c r]; [discriminate Hne|]. eauto.
Qed.

(** The lines of a text come back from the split on line breaks. *)
Lemma split_breaks_lines (brk : string) (ls : list string) :
  line_break brk ->
  Forall (fun line => plain line = true) ls ->
  forall l cur,
    plain l = true ->
    Re.split_breaks cur (Re.tokens (Py.join brk (l :: ls))) = (cur ++ l) :: ls.
Proof.
  intros Hbrk Hls. induction Hls as [|l2 ls Hl2 _ IH]; intros l cur Hl.
  - cbn [Py.join]. rewrite <- (str_app_empty_r l) at 1.
    rewrite (split_breaks_plain l Hl). reflexivity.
  - rewrite join_cons by discriminate.
    rewrite (split_breaks_plain l Hl), (tokens_break brk _ Hbrk).
    cbn [Re.split_breaks]. rewrite (IH l2 EmptyString Hl2). reflexivity.
Qed.

(** A segment is one piece of the split on runs of line breaks. *)
Lemma split_runs_segment (brk : string) (ls : list string) :
  line_break brk ->
  Forall (fun line => segment_line line = true) ls ->
  forall l cur rest,
    plain l = true ->
    Re.split_runs cur [] (Re.tokens (Py.join brk (l :: ls) ++ rest))
    = Re.split_runs (cur ++ Py.join brk (l :: ls)) [] (Re.tokens rest).
Proof.
  intros Hbrk Hls. induction Hls as [|l2 ls Hl2 _ IH]; intros l cur rest Hl.
  - cbn [Py.join]. apply (split_runs_plain l Hl).
  - rewrite !(join_cons brk l) by discriminate.
    rewrite !str_app_assoc. rewrite (split_runs_plain l Hl).
    rewrite (tokens_break brk _ Hbrk). cbn [Re.split_runs]. rewrite app_nil_l.
    destruct (segment_line_cons l2 Hl2) as (c & r & -> & Hp).
    destruct (plain_cons c r Hp) as (Hlf & Hcr & Hr).
    rewrite join_head, app_String, (tokens_plain_cons c _ Hlf Hcr).
    cbn [Re.split_runs Re.close_run]. rewrite (IH r _ rest Hr).
    f_equal. rewrite !str_app_assoc. reflexivity.
Qed.

Lemma split_runs_document (brk : string) (segs : list (list string)) :
  line_break brk ->
  Forall (fun lines => lines <> []
                       /\ Forall (fun line => segment_line line = true) lines)
         segs ->
  forall l ls cur,
    plain l = true ->
    Forall (fun line => segment_line line = true) ls ->
    Re.split_runs cur []
      (Re.tokens (Py.join (brk ++ brk)
                    (Py.join brk (l :: ls) :: List.map (Py.join brk) segs)))
    = with_groups brk
        ((cur ++ Py.join brk (l :: ls)) :: List.map (Py.join brk) segs).
Proof.
  intros Hbrk Hsegs.
  induction Hsegs as [|seg segs [Hne Hseg] _ IH]; intros l ls cur Hl Hls.
  - cbn [List.map Py.join with_groups].
    rewrite <- (str_app_empty_r (Py.join brk (l :: ls))) at 1.
    rewrite (split_runs_segment brk ls Hbrk Hls l cur EmptyString Hl).
    reflexivity.
  - destruct seg as [|l2 ls2]; [contradiction|].
    inversion Hseg as [|? ? Hl2 Hls2]; subst.
    destruct (segment_line_cons l2 Hl2) as (c & r & -> & Hp).
    destruct (plain_cons c r Hp) as (Hlf & Hcr & Hr).
    cbn [List.map]. rewrite join_cons by discriminate.
    rewrite (str_app_assoc brk brk).
    rewrite (split_runs_segment brk ls Hbrk Hls l cur _ Hl).
    rewrite (tokens_break brk _ Hbrk), (tokens_break brk _ Hbrk).
    rewrite (join_head brk c r ls2), join_head.
    rewrite (tokens_plain_cons c _ Hlf Hcr).
    cbn [Re.split_runs app Re.close_run List.last].
    rewrite (IH r ls2 (String c EmptyString) Hr Hls2).
    rewrite app_String, app_Empty. rewrite <- (join_head brk c r ls2).
    reflexivity.
Qed.

Lemma line_break_blank (brk : string) : line_break brk -> nonblank brk = false.
Proof. intros [-> | ->]; reflexivity. Qed.

Lemma filter_with_groups (brk : string) (segs : list string) :
  line_break brk ->
  Forall (fun seg => nonblank seg = true) segs ->
  List.filter nonblank (with_groups brk segs) = segs.
Proof.
  intros Hbrk Hsegs. induction Hsegs as [|seg segs Hseg Hrest IH]; [reflexivity|].
  destruct segs as [|seg2 segs].
  - cbn [with_groups List.filter]. rewrite Hseg. reflexivity.
  - change (with_groups brk (seg :: seg2 :: segs))
      with (seg :: brk :: brk :: with_groups brk (seg2 :: segs)).
    cbn [List.filter]. rewrite Hseg, (line_break_blank brk Hbrk), IH.
    reflexivity.
Qed.

Lemma filter_all (A : Type) (f : A -> bool) (l : list A) :
  Forall (fun x => f x = true) l -> List.filter f l = l.
Proof.
  intros H. induction H as [|x l Hx _ IH]; [reflexivity|].
  cbn [List.filter]. rewrite Hx, IH. reflexivity.
Qed.

Lemma segment_line_plain (lines : list string) :
  Forall (fun line => segment_line line = true) lines ->
  Forall (fun line => plain line = true) lines.
Proof.
  apply List.Forall_impl. intros line H. unfold segment_line in H.
  apply andb_true_iff in H. tauto.
Qed.

Lemma split_newline_lines (brk : string) (lines : list string) :
  line_break brk -> lines <> [] ->
  Forall (fun line => plain line = true) lines ->
  Re.split_newline (Py.join brk lines) = lines.
Proof.
  intros Hbrk Hne Hall. destruct lines as [|l ls]; [contradiction|].
  inversion Hall as [|? ? Hl Hls]; subst. unfold Re.split_newline.
  rewrite (split_breaks_lines brk ls Hbrk Hls l EmptyString Hl).
  reflexivity.
Qed.

Lemma split_blocks_of_segments (brk : string) (segs : list (list string)) :
  line_break brk -> segs <> [] ->
  Forall (segment_lines brk) segs ->
  Re.has_close (Py.join (brk ++ brk) (List.map (segment_of brk) segs)) = false ->
  split_blocks (Py.join (brk ++ brk) (List.map (segment_of brk) segs))
  = List.map (segment_of brk) segs.
Proof.
  intros Hbrk Hne Hsegs Hclose. unfold split_blocks, Re.strip_comments.
  rewrite (no_close_unchanged _ Hclose). unfold Re.split_blank_runs.
  destruct segs as [|seg segs]; [contradiction|].
  inversion Hsegs as [|? ? (Hne1 & Hseg & Hnb) Hrest]; subst.
  destruct seg as [|l ls]; [contradiction|].
  inversion Hseg as [|? ? Hl Hls]; subst.
  assert (Hl' : plain l = true).
  { unfold segment_line in Hl. apply andb_true_iff in Hl. tauto. }
  assert (Hrest' : Forall (fun lines => lines <> []
             /\ Forall (fun line => segment_line line = true) lines) segs).
  { revert Hrest. apply List.Forall_impl. intros x (H1 & H2 & _). auto. }
  unfold segment_of in *. cbn [List.map].
  rewrite (split_runs_document brk segs Hbrk Hrest' l ls EmptyString Hl' Hls).
  rewrite app_Empty.
  change (Py.join brk (l :: ls) :: List.map (Py.join brk) segs)
    with (List.map (Py.join brk) ((l :: ls) :: segs)).
  apply filter_with_groups; [exact Hbrk|].
  apply List.Forall_map. revert Hsegs. apply List.Forall_impl.
  intros x (_ & _ & H). exact H.
Qed.

(** X18: a block whose lines are joined by LF or by CR LF is parsed from
    its lines: [parse_block] gives the line-level parse of the non-blank
    lines, so the two line-break conventions give the same block. *)
Theorem parse_block_of_lines :
  forall (linesep brk : string) (lines : list string),
    line_break brk ->
    lines <> [] ->
    Forall (fun line => plain line = true) lines ->
    parse_block linesep (Py.join brk lines)
    = parse_lines linesep (List.filter nonblank lines).
Proof.
  intros linesep brk lines Hbrk Hne Hall. unfold parse_block.
  rewrite (split_newline_lines brk lines Hbrk Hne Hall). reflexivity.
Qed.

Lemma parse_block_of_lines_witness :
  parse_block nl (Py.join crlf ["# Analysis: run"; "  "; "- Location: x"; ""])
  = parse_lines nl
      (List.filter nonblank ["# Analysis: run"; "  "; "- Location: x"; ""]).
Proof.
  apply (parse_block_of_lines nl crlf
           ["# Analysis: run"; "  "; "- Location: x"; ""]).
  - right. reflexivity.
  - discriminate.
  - repeat constructor.
Defined.

(** X19: the block splitter gives back the segments of a document: when
    segments of non-empty lines, each segment not blank, are joined by an
    empty line (LF LF, or CR LF CR LF) and the text closes no comment, the
    list of blocks is the list of the segments, in order. *)
Theorem split_blocks_segments :
  forall (brk : string) (segs : list (list string)),
    line_break brk ->
    segs <> [] ->
    Forall (segment_lines brk) segs ->
    Re.has_close (Py.join (brk ++ brk) (List.map (segment_of brk) segs)) = false ->
    split_blocks (Py.join (brk ++ brk) (List.map (segment_of brk) segs))
    = List.map (segment_of brk) segs.
Proof.
  intros brk segs Hbrk Hne Hsegs Hclose.
  exact (split_blocks_of_segments brk segs Hbrk Hne Hsegs Hclose).
Qed.

Lemma split_blocks_segments_witness :
  split_blocks
    (Py.join (crlf ++ crlf)
       (List.map (segment_of crlf)
          [["# Title: T"; "# Version: 2"]; ["# Analysis: A"; "- K: v"; "  "]]))
  = List.map (segment_of crlf)
      [["# Title: T"; "# Version: 2"]; ["# Analysis: A"; "- K: v"; "  "]].
Proof.
  apply (split_blocks_segments crlf
           [["# Title: T"; "# Version: 2"]; ["# Analysis: A"; "- K: v"; "  "]]).
  - right. reflexivity.
  - discriminate.
  - repeat constructor; discriminate.
  - reflexivity.
Defined.

Lemma parse_blocks_of_segments (linesep brk : string) (segs : list (list string)) :
  line_break brk ->
  Forall (segment_lines brk) segs ->
  parse_blocks linesep (List.map (segment_of brk) segs)
  = parse_line_lists linesep segs.
Proof.
  intros Hbrk Hsegs.
  induction Hsegs as [|seg segs (Hne & Hseg & _) _ IH]; [reflexivity|].
  cbn [List.map parse_blocks parse_line_lists]. unfold parse_block, segment_of at 1.
  rewrite (split_newline_lines brk seg Hbrk Hne (segment_line_plain seg Hseg)).
  rewrite IH. reflexivity.
Qed.

(** X20: the parse of a document written as segments of non-empty lines
    with one empty line between them (LF or CR LF throughout, no comment
    closed): the metadata is the dictionary of the lines of the first
    segment, and the blocks are the line-level parses of the later
    segments, blank lines dropped; both line-break conventions give the
    same result. *)
Theorem parse_sop_of_segments :
  forall (linesep : string) (open_read : string -> result string)
         (brk : string) (pre : list string) (segs : list (list string)),
    line_break brk ->
    Forall (segment_lines brk) (pre :: segs) ->
    Re.has_close
      (Py.join (brk ++ brk) (List.map (segment_of brk) (pre :: segs))) = false ->
    parse_sop linesep open_read
      (Some (Py.join (brk ++ brk) (List.map (segment_of brk) (pre :: segs))))
      None
    = (do preamble <- preamble_dict 0 ∅ pre;
       do bs <- parse_line_lists linesep segs;
       Ok {| meta := preamble; blocks := bs |}).
Proof.
  intros linesep open_read brk pre segs Hbrk Hall Hclose.
  change (parse_sop linesep open_read
            (Some (Py.join (brk ++ brk) (List.map (segment_of brk) (pre :: segs))))
            None)
    with (parse_fulltext linesep
            (Py.join (brk ++ brk) (List.map (segment_of brk) (pre :: segs)))).
  unfold parse_fulltext.
  rewrite (split_blocks_of_segments brk (pre :: segs) Hbrk ltac:(discriminate)
             Hall Hclose).
  cbn [List.map]. inversion Hall as [|? ? (Hne & Hpre & _) Hsegs]; subst.
  unfold segment_of at 1.
  rewrite (split_newline_lines brk pre Hbrk Hne (segment_line_plain pre Hpre)).
  rewrite (parse_blocks_of_segments linesep brk segs Hbrk Hsegs).
  reflexivity.
Qed.

Lemma parse_sop_of_segments_witness :
  parse_sop nl (fun _ => Raise OSError)
    (Some (Py.join (crlf ++ crlf)
             (List.map (segment_of crlf)
                (["# Title: T"; "# Version: 2"]
                   :: [["# Analysis: A"; "- K: v"; "  "]]))))
    None
  = (do preamble <- preamble_dict 0 ∅ ["# Title: T"; "# Version: 2"];
     do bs <- parse_line_lists nl [["# Analysis: A"; "- K: v"; "  "]];
     Ok {| meta := preamble; blocks := bs |}).
Proof.
  apply (parse_sop_of_segments nl (fun _ => Raise OSError) crlf
           ["# Title: T"; "# Version: 2"] [["# Analysis: A"; "- K: v"; "  "]]).
  - right. reflexivity.
  - repeat constructor; discriminate.
  - reflexivity.
Defined.

(** ** Header lines *)

Lemma dotstar_end_no_LF (s : string) :
  Py.mem Py.LF s = false -> Re.dotstar_end s = Some s.
Proof.
  induction s as [|c r IH]; intros Hs; [reflexivity|].
  cbn [Py.mem] in Hs. apply orb_false_iff in Hs. destruct Hs as [Hc Hr].
  rewrite Ascii.eqb_sym in Hc. cbn [Re.dotstar_end]. rewrite Hc, (IH Hr).
  reflexivity.
Qed.

Lemma startswith_hash_space (rest : string) :
  Py.startswith ("# " ++ rest) "# " = true.
Proof.
  unfold Py.startswith.
  change ("# " ++ rest) with (String "#" (String " " rest)).
  destruct rest; reflexivity.
Qed.

Lemma match_header_accepts (ty nm : string) :
  Py.truthy_str ty = true ->
  Py.mem ":" ty = false ->
  Py.mem Py.LF nm = false ->
  Re.match_header ("# " ++ ty ++ String ":" nm) = Some (ty, nm).
Proof.
  intros Hty Hcolon Hnm. unfold Re.match_header.
  rewrite startswith_hash_space.
  change (Py.slice_from 2 ("# " ++ ty ++ String ":" nm)) with (ty ++ String ":" nm).
  rewrite (split_first_colon ty nm Hcolon).
  unfold Py.truthy_str in Hty. apply negb_true_iff in Hty. rewrite Hty.
  rewrite (dotstar_end_no_LF nm Hnm). reflexivity.
Qed.

(** X21: a header line [# type:name] whose stripped type is none of
    Introduction, Literature, Analysis, Quality control and History makes
    [parse_block] raise [ParseException] with the stripped type in the
    message, whatever the name and the body are; the comparison is exact,
    so another spelling of a known type is refused as well. *)
Theorem unrecognized_block_type :
  forall (linesep ty nm : string) (body : list string),
    Py.truthy_str ty = true ->
    Py.mem ":" ty = false ->
    Py.mem Py.LF nm = false ->
    in_list (Py.strip ty)
      ["Introduction"; "Literature"; "Analysis"; "Quality control"; "History"]
    = false ->
    parse_lines linesep (("# " ++ ty ++ String ":" nm) :: body)
    = Raise (ParseException
               ("Encountered unrecognized block type '" ++ Py.strip ty ++ "'")).
Proof.
  intros linesep ty nm body Hty Hcolon Hnm Hnone.
  unfold parse_lines. rewrite (match_header_accepts ty nm Hty Hcolon Hnm).
  unfold in_list, PROCESS_BLOCKS in *. cbn [existsb] in *.
  destruct (String.eqb (Py.strip ty) "Introduction"); [discriminate Hnone|].
  destruct (String.eqb (Py.strip ty) "Literature"); [discriminate Hnone|].
  destruct (String.eqb (Py.strip ty) "Analysis"); [discriminate Hnone|].
  destruct (String.eqb (Py.strip ty) "Quality control"); [discriminate Hnone|].
  destruct (String.eqb (Py.strip ty) "History"); [discriminate Hnone|].
  reflexivity.
Qed.

Lemma unrecognized_block_type_witness :
  parse_lines nl (("# " ++ "analysis " ++ String ":" " foo") :: ["- K: v"])
  = Raise (ParseException
             ("Encountered unrecognized block type '" ++ Py.strip "analysis " ++ "'")).
Proof.
  apply (unrecognized_block_type nl "analysis " " foo" ["- K: v"]); reflexivity.
Defined.

(** X22: for a header of type Introduction or Literature the name after
    the colon is discarded: whatever it is, the block is the type and the
    body lines joined by [os.linesep]; the body lines are not parsed, so
    no body makes such a block fail. *)
Theorem free_text_name_discarded :
  forall (linesep ty nm : string) (body : list string),
    Py.mem ":" ty = false ->
    Py.mem Py.LF nm = false ->
    in_list (Py.strip ty) ["Introduction"; "Literature"] = true ->
    parse_lines linesep (("# " ++ ty ++ String ":" nm) :: body)
    = Ok (FreeText (Py.strip ty) (Py.join linesep body)).
Proof.
  intros linesep ty nm body Hcolon Hnm Hfree.
  assert (Hty : Py.truthy_str ty = true).
  { destruct ty; [discriminate Hfree | reflexivity]. }
  unfold parse_lines. rewrite (match_header_accepts ty nm Hty Hcolon Hnm), Hfree.
  reflexivity.
Qed.

Lemma free_text_name_discarded_witness :
  parse_lines nl (("# " ++ " Literature " ++ String ":" " any: name") :: ["- not : parsed"; "## x"])
  = Ok (FreeText (Py.strip " Literature ") (Py.join nl ["- not : parsed"; "## x"])).
Proof.
  apply (free_text_name_discarded nl " Literature " " any: name"
           ["- not : parsed"; "## x"]); reflexivity.
Defined.

(** X23: a first line that does not start with a hash and a space, or
    that holds no colon after them, is refused as a header:
    [ParseException] quotes the line, and the body is not read. *)
Theorem header_line_refused :
  forall (linesep header : string) (body : list string),
    Py.startswith header "# " = false
    \/ Py.mem ":" (Py.slice_from 2 header) = false ->
    parse_lines linesep (header :: body)
    = Raise (ParseException
               ("Header line '" ++ header
                  ++ "' did not match expected format '# <type>: <name>'")).
Proof.
  intros linesep header body Hbad. unfold parse_lines.
  assert (Hnone : Re.match_header header = None).
  { unfold Re.match_header. destruct Hbad as [Hstart|Hcolon].
    - rewrite Hstart. reflexivity.
    - rewrite (split_no_separator ":" 1 _ Hcolon).
      destruct (Py.startswith header "# "); reflexivity. }
  rewrite Hnone. reflexivity.
Qed.

Lemma header_line_refused_witness :
  parse_lines nl ("## Analysis: run" :: ["- K: v"])
  = Raise (ParseException
             ("Header line '" ++ "## Analysis: run"
                ++ "' did not match expected format '# <type>: <name>'")).
Proof.
  apply (header_line_refused nl "## Analysis: run" ["- K: v"]).
  left. reflexivity.
Defined.

(** ** Continuation lines after an attribute line, across headers *)

Lemma attribute_held_truthy n0 t k v st :
  attribute_held n0 t k v st -> Py.truthy_dict (deref st t) = true.
Proof.
  intros H. apply (truthy_dict_key _ k). rewrite (held_value _ _ _ _ _ H). eauto.
Qed.

Lemma attribute_held_valid n0 t k v st :
  attribute_held n0 t k v st -> valid_ref st t.
Proof.
  intros H. pose proof (held_old _ _ _ _ _ H) as Ho.
  pose proof (held_length _ _ _ _ _ H) as Hl.
  destruct t as [|i]; simpl in *; [exact I | lia].
Qed.

(** The attribute line itself. *)
Lemma attribute_held_start linesep bt bn st key val :
  consistent st ->
  Py.mem ":" key = false ->
  exists st1,
    process_line linesep bt bn st ("- " ++ key ++ String ":" val) = Ok st1
    /\ attribute_held (length (subsections st))
         (match cur_subsec st with Some i => TSub i | None => TBlock end)
         (Py.strip key) (Py.strip val) st1.
Proof.
  intros Hst Hkey. rewrite (attribute_line_step _ _ _ _ _ _ Hkey). cbv zeta.
  eexists. split; [reflexivity|].
  pose proof (cur_subsec_valid st Hst) as Hvalid.
  set (t := match cur_subsec st with Some i => TSub i | None => TBlock end) in *.
  set (st0 := {| attributes := attributes st; subsections := subsections st;
                 cur_subsec := cur_subsec st; target := Some t;
                 cur_key := Some (Py.strip key) |}).
  destruct (store_fields st0 t (Py.strip key) (Py.strip val)) as (_ & Et & Ek & El).
  split.
  - rewrite Et. reflexivity.
  - rewrite Ek. reflexivity.
  - destruct t; [exact I | exact Hvalid].
  - rewrite El. simpl. lia.
  - apply store_lookup. exact Hvalid.
  - intros j s Hj Hs. apply lookup_lt_Some in Hs. rewrite El in Hs.
    simpl in Hs. lia.
Qed.

(** A header line keeps the attribute; the subsection it opens is empty. *)
Lemma attribute_held_header linesep bt bn n0 t k v st line :
  attribute_held n0 t k v st ->
  Py.startswith line "## " = true ->
  exists st',
    process_line linesep bt bn st line = Ok st'
    /\ attribute_held n0 t k v st'.
Proof.
  intros H Hhdr. pose proof (attribute_held_valid _ _ _ _ _ H) as Hvalid.
  destruct H as [Ht Hk Ho Hl Hv Hnew].
  unfold process_line.
  rewrite (subsection_header_not_attribute line Hhdr), Hhdr.
  destruct (Py.startswith line "## Not uploaded:"); simpl.
  - exists st. split; [reflexivity|]. split; assumption.
  - eexists. split; [reflexivity|]. split; simpl; try assumption.
    + rewrite length_app. lia.
    + pose proof (deref_open_subsection st line t Hvalid) as E.
      simpl in E. rewrite E. exact Hv.
    + intros j s Hj Hs.
      destruct (decide (j < length (subsections st))) as [Hlt|Hge].
      * rewrite lookup_app_l in Hs by exact Hlt. exact (Hnew j s Hj Hs).
      * rewrite lookup_app_r in Hs by lia.
        destruct (j - length (subsections st)) as [|m]; simpl in Hs.
        -- injection Hs as <-. reflexivity.
        -- discriminate Hs.
Qed.

(** A continuation line extends the attribute when the key is not empty. *)
Lemma attribute_held_continuation linesep bt bn n0 t k v st line :
  attribute_held n0 t k v st ->
  Py.truthy_str k = true ->
  is_continuation line = true ->
  exists st',
    process_line linesep bt bn st line = Ok st'
    /\ attribute_held n0 t k (append_line linesep v line) st'.
Proof.
  intros H Hk Hcont. pose proof (attribute_held_valid _ _ _ _ _ H) as Hvalid.
  pose proof (attribute_held_truthy _ _ _ _ _ H) as Htruthy.
  destruct H as [Ht Hkey Ho Hl Hv Hnew].
  apply andb_true_iff in Hcont. destruct Hcont as [Hc1 Hc2].
  apply negb_true_iff in Hc1, Hc2.
  unfold process_line. rewrite Hc1, Hc2, Ht, Htruthy, Hkey, Hk.
  unfold getitem. rewrite Hv. simpl default.
  eexists. split; [reflexivity|].
  fold (append_line linesep v line).
  destruct (store_fields st t k (append_line linesep v line)) as (_ & Et & Ek & El).
  split.
  - rewrite Et. exact Ht.
  - rewrite Ek. exact Hkey.
  - exact Ho.
  - rewrite El. exact Hl.
  - apply store_lookup. exact Hvalid.
  - intros j s Hj Hs. destruct t as [|i]; simpl in Hs.
    + exact (Hnew j s Hj Hs).
    + rewrite list_lookup_alter_ne in Hs by lia. exact (Hnew j s Hj Hs).
Qed.

Lemma not_attribute_cases (line : string) :
  is_attribute line = false ->
  is_continuation line = true
  \/ (is_continuation line = false /\ Py.startswith line "## " = true).
Proof.
  unfold is_attribute, is_continuation. intros ->. simpl.
  destruct (Py.startswith line "## "); auto.
Qed.

(** The lines between the attribute line and the next attribute line. *)
Lemma attribute_held_steps linesep bt bn n0 t k (lines : list string) :
  Py.truthy_str k = true ->
  Forall (fun line => is_attribute line = false) lines ->
  forall st v,
    attribute_held n0 t k v st ->
    exists st',
      process_lines linesep bt bn st lines = Ok st'
      /\ attribute_held n0 t k
           (foldl (append_line linesep) v (List.filter is_continuation lines)) st'.
Proof.
  intros Hk Hlines. induction Hlines as [|line lines Hline _ IH]; intros st v H.
  - exists st. split; [reflexivity | exact H].
  - cbn [process_lines List.filter].
    destruct (not_attribute_cases line Hline) as [Hc|[Hc Hhdr]]; rewrite Hc.
    + destruct (attribute_held_continuation linesep bt bn _ _ _ _ _ line H Hk Hc)
        as (st1 & -> & H1).
      simpl bind. cbn [foldl]. apply IH. exact H1.
    + destruct (attribute_held_header linesep bt bn _ _ _ _ _ line H Hhdr)
        as (st1 & -> & H1).
      simpl bind. apply IH. exact H1.
Qed.

(** With an empty key, the first continuation line is refused. *)
Lemma empty_key_refused linesep bt bn n0 t v (lines : list string) :
  Forall (fun line => is_attribute line = false) lines ->
  forall st cont,
    attribute_held n0 t EmptyString v st ->
    is_continuation cont = true ->
    process_lines linesep bt bn st (lines ++ [cont])
    = Raise (ParseException
               (unparseable_msg bt bn
                  (List.hd cont (List.filter is_continuation lines)))).
Proof.
  assert (Hraise : forall st line,
            attribute_held n0 t EmptyString v st ->
            is_continuation line = true ->
            process_line linesep bt bn st line
            = Raise (ParseException (unparseable_msg bt bn line))).
  { intros st line H Hcont.
    pose proof (attribute_held_truthy _ _ _ _ _ H) as Htruthy.
    destruct H as [Ht Hkey _ _ _ _].
    apply andb_true_iff in Hcont. destruct Hcont as [Hc1 Hc2].
    apply negb_true_iff in Hc1, Hc2.
    unfold process_line. rewrite Hc1, Hc2, Ht, Htruthy, Hkey. reflexivity. }
  intros Hlines. induction Hlines as [|line lines Hline _ IH]; intros st cont H Hcont.
  - simpl. rewrite (Hraise st cont H Hcont). reflexivity.
  - rewrite <- List.app_comm_cons. cbn [process_lines List.filter].
    destruct (not_attribute_cases line Hline) as [Hc|[Hc Hhdr]]; rewrite Hc.
    + rewrite (Hraise st line H Hc). reflexivity.
    + destruct (attribute_held_header linesep bt bn _ _ _ _ _ line H Hhdr)
        as (st1 & -> & H1).
      simpl bind. apply IH; assumption.
Qed.

Lemma filter_continuation_last (mid : list string) (cont : string) :
  is_continuation cont = true ->
  List.filter is_continuation (mid ++ [cont])
  = (List.filter is_continuation mid ++ [cont])%list.
Proof.
  intros Hcont. rewrite List.filter_app. cbn [List.filter]. rewrite Hcont.
  reflexivity.
Qed.

(** C2, amended: a header that opens a subsection assigns neither
    [target] nor [cur_key].  After an attribute line [- key: value],
    every continuation line that comes before the next attribute line is
    appended to that attribute, in the dictionary that was current at the
    attribute line (the block's, or an earlier subsection's), however many
    subsection headers and other continuation lines lie between: the value
    is the stripped value of the attribute line extended by each
    continuation line in turn, after [os.linesep] when the value is not
    empty.  The subsections opened in between are stored with their names
    and stay without attributes.  [ParseException] with the block type, the
    block name and the line is raised only when the stripped key is the
    empty string, by the first continuation line. *)
Theorem continuation_after_subsection_header :
  forall (linesep bt bn : string) (before : list string) (st : locals)
         (key val : string) (between : list string) (cont : string),
    process_lines linesep bt bn initial before = Ok st ->
    Py.mem ":" key = false ->
    Forall (fun line => is_attribute line = false) between ->
    is_continuation cont = true ->
    let t := match cur_subsec st with Some i => TSub i | None => TBlock end in
    let lines :=
      (before ++ ("- " ++ key ++ String ":" val)%string :: between ++ [cont])%list in
    if Py.truthy_str (Py.strip key) then
      exists st',
        process_lines linesep bt bn initial lines = Ok st'
        /\ target st' = Some t /\ cur_key st' = Some (Py.strip key)
        /\ deref st' t !! Py.strip key
           = Some (foldl (append_line linesep) (Py.strip val)
                     (List.filter is_continuation between ++ [cont])%list)
        /\ List.map sub_name (subsections st')
           = (List.map sub_name (subsections st)
                ++ List.map (fun line => Py.strip (Py.slice_from 3 line))
                     (List.filter opens_subsection between))%list
        /\ (forall j s,
              length (subsections st) <= j ->
              subsections st' !! j = Some s -> sub_attributes s = ∅)
    else
      process_lines linesep bt bn initial lines
      = Raise (ParseException
                 (unparseable_msg bt bn
                    (List.hd cont (List.filter is_continuation between)))).
Proof.
  intros linesep bt bn before st key val between cont Hbefore Hkey Hbetween Hcont
         t lines.
  pose proof (consistent_steps _ _ _ _ _ _ consistent_initial Hbefore) as Hst.
  destruct (attribute_held_start linesep bt bn st key val Hst Hkey)
    as (st1 & Hstep & Hheld). fold t in Hheld.
  assert (Hrun : process_lines linesep bt bn initial lines
                 = process_lines linesep bt bn st1 (between ++ [cont])).
  { unfold lines. rewrite process_lines_app, Hbefore. simpl bind.
    cbn [process_lines]. rewrite Hstep. reflexivity. }
  destruct (Py.truthy_str (Py.strip key)) eqn:Hk.
  - assert (Hall : Forall (fun line => is_attribute line = false)
                     (between ++ [cont])).
    { apply List.Forall_app. split; [exact Hbetween|].
      constructor; [|constructor].
      unfold is_attribute. unfold is_continuation in Hcont.
      apply andb_true_iff in Hcont. destruct Hcont as [Hc _].
      apply negb_true_iff in Hc. exact Hc. }
    destruct (attribute_held_steps linesep bt bn _ _ _ (between ++ [cont])
                Hk Hall st1 (Py.strip val) Hheld) as (st' & Hst' & Hheld').
    rewrite (filter_continuation_last between cont Hcont) in Hheld'.
    exists st'. rewrite Hrun.
    destruct Hheld' as [Ht Hkey' _ _ Hv Hnew].
    repeat (split; [assumption|]). split; [|exact Hnew].
    assert (Hfrom : process_lines linesep bt bn st
                      (("- " ++ key ++ String ":" val) :: between ++ [cont])
                    = Ok st').
    { cbn [process_lines]. rewrite Hstep. exact Hst'. }
    rewrite (steps_names _ _ _ _ _ _ Hfrom). f_equal. f_equal.
    cbn [List.filter].
    assert (Ha : opens_subsection ("- " ++ key ++ String ":" val) = false).
    { unfold opens_subsection. rewrite startswith_hyphen_space. reflexivity. }
    rewrite Ha, List.filter_app. cbn [List.filter].
    assert (Hc : opens_subsection cont = false).
    { unfold opens_subsection. unfold is_continuation in Hcont.
      apply andb_true_iff in Hcont. destruct Hcont as [Hc1 Hc2].
      apply negb_true_iff in Hc1, Hc2. rewrite Hc1, Hc2. reflexivity. }
    rewrite Hc, app_nil_r. reflexivity.
  - rewrite Hrun.
    assert (Hempty : Py.strip key = EmptyString).
    { unfold Py.truthy_str in Hk. apply negb_false_iff, String.eqb_eq in Hk.
      exact Hk. }
    rewrite Hempty in Hheld.
    exact (empty_key_refused linesep bt bn _ _ _ between Hbetween st1 cont
             Hheld Hcont).
Qed.

Lemma continuation_after_subsection_header_witness :
  exists st',
    process_lines nl "Analysis" "x" initial
      (["## first.csv"]
         ++ ("- " ++ "A " ++ String ":" " x")%string
         :: ["## sub"; "more"; "## Not uploaded: raw"; "## sub2"] ++ ["cont"])%list
    = Ok st'
    /\ target st' = Some (TSub 0) /\ cur_key st' = Some "A"
    /\ deref st' (TSub 0) !! "A" = Some ("x" ++ nl ++ "more" ++ nl ++ "cont")
    /\ List.map sub_name (subsections st') = ["first.csv"; "sub"; "sub2"]
    /\ (forall j s,
          1 <= j -> subsections st' !! j = Some s -> sub_attributes s = ∅).
Proof.
  exact (continuation_after_subsection_header nl "Analysis" "x"
           ["## first.csv"] (open_subsection initial "## first.csv")
           "A " " x" ["## sub"; "more"; "## Not uploaded: raw"; "## sub2"] "cont"
           eq_refl eq_refl ltac:(repeat constructor) eq_refl).
Defined.
